(** * sigairegister: the registration and check-in handlers of [app.py]

    A model of the Flask application of [app.py]: the Python values it
    handles, the [json] codec it calls, the two MongoDB collections, the
    handlers [index], [register] and [validate] with the exceptions they
    raise and catch, the URL rules, and two [validate] requests running
    side by side.  The properties of the check-in logic follow the
    definitions. *)

From Stdlib Require Import List String Ascii Bool NArith ZArith Lia.
From Stdlib Require Import DecimalString.
Import ListNotations.

Set Implicit Arguments.
Set Warnings "-register-all".
Local Open Scope N_scope.

(** ** Python values *)

(** A Python [str] is a sequence of code points. *)
Definition pystr := list N.

(** The [str] written by an ASCII literal of the source. *)
Definition py (s : string) : pystr :=
  map N_of_ascii (list_ascii_of_string s).

Fixpoint pystr_eqb (a b : pystr) : bool :=
  match a, b with
  | [], [] => true
  | x :: a', y :: b' => N.eqb x y && pystr_eqb a' b'
  | _, _ => false
  end.

(** The values that reach the handlers: what [json.loads] builds, plus
    the [ObjectId] the driver attaches to a stored document.  A float is
    kept as the literal it was read from. *)
Inductive value :=
| VNone
| VBool (b : bool)
| VInt (z : Z)
| VFloat (lit : pystr)
| VStr (s : pystr)
| VList (l : list value)
| VDict (d : list (pystr * value))
| VOid (id : N).

(** A [dict] keeps its keys in insertion order. *)
Definition dict := list (pystr * value).

Fixpoint dict_get (d : dict) (k : pystr) : option value :=
  match d with
  | [] => None
  | (k', v) :: d' => if pystr_eqb k' k then Some v else dict_get d' k
  end.

Definition dict_mem (d : dict) (k : pystr) : bool :=
  match dict_get d k with Some _ => true | None => false end.

(** [d[k] = v]: an existing key keeps its place, a new one goes last. *)
Fixpoint dict_set (d : dict) (k : pystr) (v : value) : dict :=
  match d with
  | [] => [(k, v)]
  | (k', v') :: d' =>
      if pystr_eqb k' k then (k', v) :: d' else (k', v') :: dict_set d' k v
  end.

Fixpoint value_eqb (a b : value) {struct a} : bool :=
  match a, b with
  | VNone, VNone => true
  | VBool x, VBool y => Bool.eqb x y
  | VInt x, VInt y => Z.eqb x y
  | VFloat x, VFloat y => pystr_eqb x y
  | VStr x, VStr y => pystr_eqb x y
  | VList x, VList y =>
      (fix list_eqb (x y : list value) {struct x} : bool :=
         match x, y with
         | [], [] => true
         | u :: x', w :: y' => value_eqb u w && list_eqb x' y'
         | _, _ => false
         end) x y
  | VDict x, VDict y =>
      (fix items_eqb (x y : dict) {struct x} : bool :=
         match x, y with
         | [], [] => true
         | (k, u) :: x', (l, w) :: y' =>
             pystr_eqb k l && value_eqb u w && items_eqb x' y'
         | _, _ => false
         end) x y
  | VOid x, VOid y => N.eqb x y
  | _, _ => false
  end.

(** The digits of a float literal before its exponent are all zero. *)
Fixpoint float_lit_zero (lit : pystr) : bool :=
  match lit with
  | [] => true
  | c :: r =>
      if (N.eqb c 101 || N.eqb c 69)%bool then true      (* e E *)
      else if (N.leb 49 c && N.leb c 57)%bool then false  (* 1-9 *)
      else if (N.eqb c 78 || N.eqb c 73)%bool then false  (* NaN, Infinity *)
      else float_lit_zero r
  end.

(** Python's truth value of an object, as [if x:] and [not x] read it.
    A float literal that underflows to zero is not told from a non-zero
    one. *)
Definition truthy (v : value) : bool :=
  match v with
  | VNone => false
  | VBool b => b
  | VInt z => negb (Z.eqb z 0)
  | VFloat lit => negb (float_lit_zero lit)
  | VStr s => match s with [] => false | _ => true end
  | VList l => match l with [] => false | _ => true end
  | VDict d => match d with [] => false | _ => true end
  | VOid _ => true
  end.

(** ** Exceptions *)

Inductive exn :=
| JSONDecodeError
| KeyError
| AttributeError
| TypeError
| DuplicateKeyError
| ConnectionError
| RecursionError
| HTTPException (code : N).

Inductive result (A : Type) :=
| Ret (a : A)
| Raise (e : exn).

Arguments Raise {A} e.

(** ** [json.dumps]

    The encoder of Python's [json] module with its defaults
    ([ensure_ascii=True], separators [", "] and [": "]) and the
    [ObjectIdEncoder] of the source, whose [default] turns an [ObjectId]
    into [str(obj)]. *)

Definition hexdigit (n : N) : N :=
  if N.ltb n 10 then 48 + n else 87 + n.

(** The [n] low hexadecimal digits of [x], most significant first. *)
Fixpoint hex_digits (n : nat) (x : N) : pystr :=
  match n with
  | O => []
  | S k => hex_digits k (N.div x 16) ++ [hexdigit (N.modulo x 16)]
  end.

(** [str(ObjectId)]: the 12 bytes as 24 hexadecimal digits. *)
Definition oid_str (id : N) : pystr := hex_digits 24 id.

(** ["\\u{0:04x}".format(n)] *)
Definition u_escape (n : N) : pystr := 92 :: 117 :: hex_digits 4 n.

Definition escape_char (c : N) : pystr :=
  if N.eqb c 34 then [92; 34]
  else if N.eqb c 92 then [92; 92]
  else if N.eqb c 10 then [92; 110]
  else if N.eqb c 13 then [92; 114]
  else if N.eqb c 9 then [92; 116]
  else if N.eqb c 12 then [92; 102]
  else if N.eqb c 8 then [92; 98]
  else if (N.leb 32 c && N.leb c 126)%bool then [c]
  else if N.ltb c 65536 then u_escape c
  else
    let n := c - 65536 in
    let s1 := N.lor 55296 (N.land (N.shiftr n 10) 1023) in
    let s2 := N.lor 56320 (N.land n 1023) in
    u_escape s1 ++ u_escape s2.

Definition encode_basestring_ascii (s : pystr) : pystr :=
  34 :: flat_map escape_char s ++ [34].

Definition int_repr (z : Z) : pystr :=
  py (NilZero.string_of_int (Z.to_int z)).

Fixpoint dumps (v : value) : pystr :=
  match v with
  | VNone => py "null"
  | VBool true => py "true"
  | VBool false => py "false"
  | VInt z => int_repr z
  | VFloat lit => lit
  | VStr s => encode_basestring_ascii s
  | VList l =>
      match l with
      | [] => py "[]"
      | x :: l' =>
          py "[" ++ dumps x
          ++ (fix rest (l : list value) : pystr :=
                match l with
                | [] => []
                | y :: l' => py ", " ++ dumps y ++ rest l'
                end) l'
          ++ py "]"
      end
  | VDict d =>
      match d with
      | [] => py "{}"
      | (k, x) :: d' =>
          py "{" ++ encode_basestring_ascii k ++ py ": " ++ dumps x
          ++ (fix rest (d : dict) : pystr :=
                match d with
                | [] => []
                | (k, y) :: d' =>
                    py ", " ++ encode_basestring_ascii k ++ py ": "
                    ++ dumps y ++ rest d'
                end) d'
          ++ py "}"
      end
  | VOid id => encode_basestring_ascii (oid_str id)
  end.

(** ** [json.loads]

    The decoder of Python's [json] module on a [str]: [scanstring] with
    [strict=True], the number pattern, the three names and the three
    non-finite floats, arrays, objects (a repeated key keeps the last
    value), blanks between tokens, and nothing but blanks after the
    value.  Every failure is Python's [JSONDecodeError]. *)

Definition is_digit (c : N) : bool := N.leb 48 c && N.leb c 57.

Definition is_space (c : N) : bool :=
  N.eqb c 32 || N.eqb c 9 || N.eqb c 10 || N.eqb c 13.

Fixpoint skip_ws (s : pystr) : pystr :=
  match s with
  | c :: r => if is_space c then skip_ws r else s
  | [] => []
  end.

Definition hexval (c : N) : option N :=
  if is_digit c then Some (c - 48)
  else if (N.leb 97 c && N.leb c 102)%bool then Some (c - 87)
  else if (N.leb 65 c && N.leb c 70)%bool then Some (c - 55)
  else None.

Definition hexval4 (h1 h2 h3 h4 : N) : option N :=
  match hexval h1, hexval h2, hexval h3, hexval h4 with
  | Some a, Some b, Some c, Some d => Some (((a * 16 + b) * 16 + c) * 16 + d)
  | _, _, _, _ => None
  end.

Definition is_high_surrogate (c : N) : bool := N.leb 55296 c && N.leb c 56319.
Definition is_low_surrogate (c : N) : bool := N.leb 56320 c && N.leb c 57343.

Definition join_surrogates (hi lo : N) : N :=
  65536 + N.lor (N.shiftl (hi - 55296) 10) (lo - 56320).

Definition simple_escape (e : N) : option N :=
  if N.eqb e 34 then Some 34            (* quote *)
  else if N.eqb e 92 then Some 92       (* backslash *)
  else if N.eqb e 47 then Some 47       (* slash *)
  else if N.eqb e 98 then Some 8        (* b *)
  else if N.eqb e 102 then Some 12      (* f *)
  else if N.eqb e 110 then Some 10      (* n *)
  else if N.eqb e 114 then Some 13      (* r *)
  else if N.eqb e 116 then Some 9       (* t *)
  else None.

Definition cons_char (c : N) (r : option (pystr * pystr)) :
  option (pystr * pystr) :=
  match r with
  | Some (t, rest) => Some (c :: t, rest)
  | None => None
  end.

(** The text of a string literal from just after its opening quote,
    and what follows its closing quote. *)
Fixpoint scanstring (s : pystr) : option (pystr * pystr) :=
  match s with
  | [] => None
  | c :: r =>
      if N.eqb c 34 then Some ([], r)
      else if N.eqb c 92 then
        match r with
        | [] => None
        | e :: r1 =>
            if N.eqb e 117 then
              match r1 with
              | h1 :: h2 :: h3 :: h4 :: r2 =>
                  match hexval4 h1 h2 h3 h4 with
                  | None => None
                  | Some uni =>
                      if is_high_surrogate uni then
                        match r2 with
                        | b :: u :: g1 :: g2 :: g3 :: g4 :: r3 =>
                            if (N.eqb b 92 && N.eqb u 117)%bool then
                              match hexval4 g1 g2 g3 g4 with
                              | None => None
                              | Some uni2 =>
                                  if is_low_surrogate uni2
                                  then cons_char (join_surrogates uni uni2)
                                         (scanstring r3)
                                  else cons_char uni (scanstring r2)
                              end
                            else cons_char uni (scanstring r2)
                        | _ => cons_char uni (scanstring r2)
                        end
                      else cons_char uni (scanstring r2)
                  end
              | _ => None
              end
            else
              match simple_escape e with
              | Some x => cons_char x (scanstring r1)
              | None => None
              end
        end
      else if N.leb c 31 then None
      else cons_char c (scanstring r)
  end.

Fixpoint span_digits (s : pystr) : pystr * pystr :=
  match s with
  | c :: r =>
      if is_digit c then let (ds, rest) := span_digits r in (c :: ds, rest)
      else ([], s)
  | [] => ([], [])
  end.

Definition int_of_digits (ds : pystr) : Z :=
  fold_left (fun acc d => (acc * 10 + Z.of_N (d - 48))%Z) ds 0%Z.

(** The fraction [.digits] at the head of [s], if there is one. *)
Definition match_frac (s : pystr) : pystr * pystr :=
  match s with
  | dot :: f :: r =>
      if (N.eqb dot 46 && is_digit f)%bool then
        let (fs, rest) := span_digits r in (dot :: f :: fs, rest)
      else ([], s)
  | _ => ([], s)
  end.

(** The exponent [e], sign, digits at the head of [s], if there is one. *)
Definition match_exp (s : pystr) : pystr * pystr :=
  match s with
  | e :: r =>
      if (N.eqb e 101 || N.eqb e 69)%bool then
        match r with
        | sg :: d :: r' =>
            if ((N.eqb sg 43 || N.eqb sg 45) && is_digit d)%bool then
              let (ds, rest) := span_digits r' in (e :: sg :: d :: ds, rest)
            else if is_digit sg then
              let (ds, rest) := span_digits (d :: r') in (e :: sg :: ds, rest)
            else ([], s)
        | [d] => if is_digit d then ([e; d], []) else ([], s)
        | [] => ([], s)
        end
      else ([], s)
  | [] => ([], s)
  end.

Definition match_number (s : pystr) : option (value * pystr) :=
  let (sign, s1) :=
    match s with
    | c :: r => if N.eqb c 45 then ([45], r) else ([], s)
    | [] => ([], s)
    end in
  match s1 with
  | [] => None
  | d :: r =>
      if is_digit d then
        let (int, r1) :=
          if N.eqb d 48 then ([d], r)
          else let (ds, rest) := span_digits r in (d :: ds, rest) in
        let (frac, r2) := match_frac r1 in
        let (exp, r3) := match_exp r2 in
        match frac, exp with
        | [], [] =>
            Some (VInt (match sign with
                        | [] => int_of_digits int
                        | _ => - int_of_digits int
                        end%Z), r3)
        | _, _ => Some (VFloat (sign ++ int ++ frac ++ exp), r3)
        end
      else None
  end.

Fixpoint strip_prefix (p s : pystr) : option pystr :=
  match p, s with
  | [], _ => Some s
  | a :: p', b :: s' => if N.eqb a b then strip_prefix p' s' else None
  | _ :: _, [] => None
  end.

(** What a scanner returns: a value and the text after it, a syntax
    error, or the end of the recursion budget. *)
Inductive parsed :=
| Parsed (v : value) (rest : pystr)
| Malformed
| OutOfFuel.

Definition of_option (r : option (value * pystr)) : parsed :=
  match r with
  | Some (v, rest) => Parsed v rest
  | None => Malformed
  end.

Definition scan_atom (s : pystr) : parsed :=
  match strip_prefix (py "null") s with
  | Some r => Parsed VNone r
  | None =>
  match strip_prefix (py "true") s with
  | Some r => Parsed (VBool true) r
  | None =>
  match strip_prefix (py "false") s with
  | Some r => Parsed (VBool false) r
  | None =>
  match strip_prefix (py "NaN") s with
  | Some r => Parsed (VFloat (py "NaN")) r
  | None =>
  match strip_prefix (py "Infinity") s with
  | Some r => Parsed (VFloat (py "Infinity")) r
  | None =>
  match strip_prefix (py "-Infinity") s with
  | Some r => Parsed (VFloat (py "-Infinity")) r
  | None => of_option (match_number s)
  end end end end end end.

(** [scan_once] reads one value at the head of [s]; [parse_array] and
    [parse_object] read the rest of an array after its first blanks and
    the members of an object from a key on, [acc] holding what was read
    so far. *)
Fixpoint scan_once (fuel : nat) (s : pystr) {struct fuel} : parsed :=
  match fuel with
  | O => OutOfFuel
  | S fuel' =>
      match s with
      | [] => Malformed
      | c :: r =>
          if N.eqb c 34 then
            match scanstring r with
            | Some (t, rest) => Parsed (VStr t) rest
            | None => Malformed
            end
          else if N.eqb c 123 then
            match skip_ws r with
            | [] => Malformed
            | c' :: r' =>
                if N.eqb c' 125 then Parsed (VDict []) r'
                else parse_object fuel' [] (c' :: r')
            end
          else if N.eqb c 91 then
            match skip_ws r with
            | [] => Malformed
            | c' :: r' =>
                if N.eqb c' 93 then Parsed (VList []) r'
                else parse_array fuel' [] (c' :: r')
            end
          else scan_atom s
      end
  end
with parse_array (fuel : nat) (acc : list value) (s : pystr)
       {struct fuel} : parsed :=
  match fuel with
  | O => OutOfFuel
  | S fuel' =>
      match scan_once fuel' s with
      | Parsed v r =>
          match skip_ws r with
          | [] => Malformed
          | c :: r' =>
              if N.eqb c 93 then Parsed (VList (acc ++ [v])) r'
              else if N.eqb c 44 then parse_array fuel' (acc ++ [v]) (skip_ws r')
              else Malformed
          end
      | other => other
      end
  end
with parse_object (fuel : nat) (acc : dict) (s : pystr)
       {struct fuel} : parsed :=
  match fuel with
  | O => OutOfFuel
  | S fuel' =>
      match s with
      | [] => Malformed
      | q :: r =>
          if N.eqb q 34 then
            match scanstring r with
            | None => Malformed
            | Some (k, r1) =>
                match skip_ws r1 with
                | [] => Malformed
                | colon :: r2 =>
                    if N.eqb colon 58 then
                      match scan_once fuel' (skip_ws r2) with
                      | Parsed v r3 =>
                          match skip_ws r3 with
                          | [] => Malformed
                          | c :: r4 =>
                              if N.eqb c 125
                              then Parsed (VDict (dict_set acc k v)) r4
                              else if N.eqb c 44
                              then parse_object fuel' (dict_set acc k v)
                                     (skip_ws r4)
                              else Malformed
                          end
                      | other => other
                      end
                    else Malformed
                end
            end
          else Malformed
      end
  end.

(** [json.loads(s)] for a [str]: blanks, one value, blanks, the end. *)
Definition decode (s : pystr) : parsed :=
  match scan_once (2 * List.length s + 1)%nat (skip_ws s) with
  | Parsed v rest =>
      match skip_ws rest with
      | [] => Parsed v []
      | _ :: _ => Malformed
      end
  | other => other
  end.

(** ** The MongoDB collections

    A collection is the list of its documents in insertion order.  The
    program creates no index; whether the database holds a unique index
    on [register_number] is a property of the deployment, kept with the
    collection.  A filter [{k: v}] is read as the equality match on
    the field, which is what MongoDB does for the text values the
    registration form stores; query operators inside [v] and the
    limits of BSON on what a document may hold are outside the model. *)

Definition document := dict.

Record collection := {
  docs : list document;
  unique_register_number : bool
}.

Definition field_is (k : pystr) (v : value) (d : document) : bool :=
  match dict_get d k with
  | Some x => value_eqb x v
  | None => false
  end.

(** [find_one({k: v})]: the first matching document, or [None]. *)
Fixpoint find_first (ds : list document) (k : pystr) (v : value) : value :=
  match ds with
  | [] => VNone
  | d :: ds' => if field_is k v d then VDict d else find_first ds' k v
  end.

Definition find_one (c : collection) (k : pystr) (v : value) : value :=
  find_first (docs c) k v.

(** A unique index on [register_number] refuses a second document with
    the same value. *)
Definition violates_index (c : collection) (d : document) : bool :=
  unique_register_number c &&
  match dict_get d (py "register_number") with
  | Some v => truthy (find_one c (py "register_number") v)
  | None => false
  end.

(** ** The world the handlers run in *)

Inductive script_url := REGISTRATION_SCRIPT_URL | VALIDATION_SCRIPT_URL.

Record mail := {
  mail_name : pystr;
  mail_register_number : pystr;
  mail_to : pystr;
  mail_qr : pystr      (* the text the attached QR image encodes *)
}.

Record world := {
  registration_collection : collection;
  validation_collection : collection;
  next_id : N;                             (* the next ObjectId *)
  ledger : list (script_url * pystr);      (* bodies posted so far *)
  outbox : list mail;                      (* mails sent so far *)
  flashes : list (pystr * pystr)           (* flashed (message, category) *)
}.

(** What the outside answers during one request: the Apps Script
    endpoint and the SMTP server. *)
Inductive post_reply :=
| StatusCode (code : Z)
| Unreachable.

Record env := {
  ledger_reply : post_reply;
  smtp_ok : bool
}.

(** A computation reads and writes the world and returns or raises; what
    it wrote before raising stays written. *)
Definition M (A : Type) : Type := world -> result A * world.

Definition ret {A} (a : A) : M A := fun w => (Ret a, w).

Definition raise {A} (e : exn) : M A := fun w => (Raise e, w).

Definition bind {A B} (m : M A) (k : A -> M B) : M B :=
  fun w =>
    match m w with
    | (Ret a, w') => k a w'
    | (Raise e, w') => (Raise e, w')
    end.

Notation "x <- m ;; k" := (bind m (fun x => k))
  (at level 61, m at next level, right associativity).
Notation "m ;;; k" := (bind m (fun _ => k))
  (at level 61, right associativity).

(** [try: m except ...: h]: [h e] is the clause that catches [e], if
    one does. *)
Definition try_except {A} (m : M A) (h : exn -> option (M A)) : M A :=
  fun w =>
    match m w with
    | (Raise e, w') =>
        match h e with
        | Some k => k w'
        | None => (Raise e, w')
        end
    | r => r
    end.

Inductive which := Registration | Validation.

Definition coll (c : which) (w : world) : collection :=
  match c with
  | Registration => registration_collection w
  | Validation => validation_collection w
  end.

Definition M_find_one (c : which) (k : pystr) (v : value) : M value :=
  fun w => (Ret (find_one (coll c w) k v), w).

Definition add_doc (c : collection) (d : document) : collection :=
  {| docs := docs c ++ [d];
     unique_register_number := unique_register_number c |}.

(** The world after a document is stored under the next [ObjectId]. *)
Definition stored (c : which) (d : document) (w : world) : world :=
  {| registration_collection :=
       match c with
       | Registration => add_doc (registration_collection w) d
       | Validation => registration_collection w
       end;
     validation_collection :=
       match c with
       | Registration => validation_collection w
       | Validation => add_doc (validation_collection w) d
       end;
     next_id := N.succ (next_id w);
     ledger := ledger w;
     outbox := outbox w;
     flashes := flashes w |}.

Definition posted (url : script_url) (body : pystr) (w : world) : world :=
  {| registration_collection := registration_collection w;
     validation_collection := validation_collection w;
     next_id := next_id w;
     ledger := ledger w ++ [(url, body)];
     outbox := outbox w;
     flashes := flashes w |}.

Definition flashed (message category : string) (w : world) : world :=
  {| registration_collection := registration_collection w;
     validation_collection := validation_collection w;
     next_id := next_id w;
     ledger := ledger w;
     outbox := outbox w;
     flashes := flashes w ++ [(py message, py category)] |}.

Definition mailed (m : mail) (w : world) : world :=
  {| registration_collection := registration_collection w;
     validation_collection := validation_collection w;
     next_id := next_id w;
     ledger := ledger w;
     outbox := outbox w ++ [m];
     flashes := flashes w |}.

(** [insert_one(document)] for a document without [_id]: the driver
    writes a fresh [ObjectId] into the caller's dict and stores it.
    Returns [inserted_id] and the dict as the caller now sees it. *)
Definition insert_one (c : which) (d : document) : M (N * document) :=
  fun w =>
    if violates_index (coll c w) d then (Raise DuplicateKeyError, w)
    else
      let d' := dict_set d (py "_id") (VOid (next_id w)) in
      (Ret (next_id w, d'), stored c d' w).

(** [requests.post(url, data=body, ...)]: the status code of the reply. *)
Definition requests_post (e : env) (url : script_url) (body : pystr) : M Z :=
  fun w =>
    match ledger_reply e with
    | StatusCode code => (Ret code, posted url body w)
    | Unreachable => (Raise ConnectionError, posted url body w)
    end.

Definition flash (message category : string) : M unit :=
  fun w => (Ret tt, flashed message category w).

(** The QR image is kept as the text it encodes. *)
Definition generate_qr_code (data : pystr) : pystr := data.

(** The SMTP session either delivers the message or fails, and a
    failure is caught and flashed. *)
Definition send_email_with_qr (e : env)
    (name register_number recipient_email qr_image : pystr) : M unit :=
  fun w =>
    if smtp_ok e then
      (Ret tt, mailed {| mail_name := name;
                         mail_register_number := register_number;
                         mail_to := recipient_email;
                         mail_qr := qr_image |} w)
    else
      flash "Failed to send email with QR code. Please contact the event organizers."
            "error" w.

(** ** Requests and responses *)

Inductive verb := GET | POST | HEAD | OPTIONS | OTHER.

Definition verb_eqb (a b : verb) : bool :=
  match a, b with
  | GET, GET | POST, POST | HEAD, HEAD | OPTIONS, OPTIONS | OTHER, OTHER => true
  | _, _ => false
  end.

(** [request.json]: no JSON content type, a body that is not JSON, or
    the parsed body. *)
Inductive json_body :=
| NoJson
| BadJson
| JsonBody (v : value).

Record request := {
  method : verb;
  path : pystr;
  form : list (pystr * pystr);
  json : json_body
}.

Inductive response :=
| Template (name : string)       (* render_template(name) *)
| RedirectTo (url : pystr)       (* redirect(url) *)
| Json (body : value)            (* jsonify(body) *)
| Allow (methods : list verb)    (* the automatic reply to OPTIONS *)
| ErrorPage (code : N).          (* an HTTP error status *)

(** [request.form[k]] raises werkzeug's [BadRequestKeyError], a 400. *)
Fixpoint form_get (f : list (pystr * pystr)) (k : pystr) : M pystr :=
  match f with
  | [] => raise (HTTPException 400)
  | (k', v) :: f' => if pystr_eqb k' k then ret v else form_get f' k
  end.

Definition request_json (rq : request) : M value :=
  match json rq with
  | NoJson => raise (HTTPException 415)
  | BadJson => raise (HTTPException 400)
  | JsonBody v => ret v
  end.

(** [o.get(k)] *)
Definition py_get (o : value) (k : string) : M value :=
  match o with
  | VDict d =>
      ret (match dict_get d (py k) with Some v => v | None => VNone end)
  | _ => raise AttributeError
  end.

(** [o[k]] for a [str] key *)
Definition py_item (o : value) (k : string) : M value :=
  match o with
  | VDict d =>
      match dict_get d (py k) with
      | Some v => ret v
      | None => raise KeyError
      end
  | _ => raise TypeError
  end.

Fixpoint is_substring (p s : pystr) : bool :=
  match strip_prefix p s with
  | Some _ => true
  | None => match s with [] => false | _ :: s' => is_substring p s' end
  end.

(** [k in o] for a [str] [k] *)
Definition py_in (k : string) (o : value) : M bool :=
  match o with
  | VDict d => ret (dict_mem d (py k))
  | VList l => ret (existsb (value_eqb (VStr (py k))) l)
  | VStr s => ret (is_substring (py k) s)
  | _ => raise TypeError
  end.

(** [all(field in o for field in fields)] *)
Fixpoint all_in (fields : list string) (o : value) : M bool :=
  match fields with
  | [] => ret true
  | f :: fs => b <- py_in f o ;; if b then all_in fs o else ret false
  end.

(** [json.loads(x)] *)
Definition json_loads (x : value) : M value :=
  match x with
  | VStr s =>
      match decode s with
      | Parsed v _ => ret v
      | Malformed => raise JSONDecodeError
      | OutOfFuel => raise RecursionError
      end
  | _ => raise TypeError
  end.

Definition reply (valid : bool) (message : string) : response :=
  Json (VDict [(py "valid", VBool valid); (py "message", VStr (py message))]).

(** ** The views of [app.py] *)

Definition url_index : pystr := py "/".

Definition index (e : env) (rq : request) : M response :=
  ret (Template "registration_form.html").

Definition register (e : env) (rq : request) : M response :=
  name <- form_get (form rq) (py "name") ;;
  degree <- form_get (form rq) (py "degree") ;;
  class_section <- form_get (form rq) (py "class_section") ;;
  year <- form_get (form rq) (py "year") ;;
  register_number <- form_get (form rq) (py "register_number") ;;
  email <- form_get (form rq) (py "email") ;;
  phone <- form_get (form rq) (py "phone") ;;
  let attendee_info : dict :=
    [(py "name", VStr name);
     (py "degree", VStr degree);
     (py "class_section", VStr class_section);
     (py "year", VStr year);
     (py "register_number", VStr register_number);
     (py "email", VStr email);
     (py "phone", VStr phone)] in
  existing_registration <-
    M_find_one Registration (py "register_number") (VStr register_number) ;;
  if truthy existing_registration then
    flash "You have already registered. Please check your details and try again."
          "error" ;;;
    ret (RedirectTo url_index)
  else
    r <- insert_one Registration attendee_info ;;
    let (inserted_id, attendee_info) := r in
    let attendee_info := dict_set attendee_info (py "_id") (VOid inserted_id) in
    let json_data := dumps (VDict attendee_info) in
    status_code <- requests_post e REGISTRATION_SCRIPT_URL json_data ;;
    if negb (Z.eqb status_code 200) then
      flash "Failed to save data to Google Sheets. Please try again later."
            "error" ;;;
      ret (RedirectTo url_index)
    else
      let qr_img := generate_qr_code json_data in
      send_email_with_qr e name register_number email qr_img ;;;
      ret (Template "thanks.html").

Definition required_fields : list string :=
  ["name"; "degree"; "class_section"; "year"; "register_number"; "email";
   "phone"]%string.

(** The body of the [try] block of [validate]. *)
Definition validate_try (e : env) (qr_data : value) : M response :=
  attendee_info <- json_loads qr_data ;;
  register_number <- py_get attendee_info "register_number" ;;
  present <- all_in required_fields attendee_info ;;
  if negb present then
    ret (reply false "Missing required information in QR code.")
  else
    existing_registration <-
      M_find_one Registration (py "register_number") register_number ;;
    if negb (truthy existing_registration) then
      ret (reply false "Registration not found. Please register first.")
    else
      existing_validation <-
        M_find_one Validation (py "register_number") register_number ;;
      if truthy existing_validation then
        ret (reply false "This QR code has already been scanned.")
      else
        name <- py_item attendee_info "name" ;;
        degree <- py_item attendee_info "degree" ;;
        class_section <- py_item attendee_info "class_section" ;;
        year <- py_item attendee_info "year" ;;
        register_number' <- py_item attendee_info "register_number" ;;
        email <- py_item attendee_info "email" ;;
        phone <- py_item attendee_info "phone" ;;
        let validation_data : dict :=
          [(py "name", name);
           (py "degree", degree);
           (py "class_section", class_section);
           (py "year", year);
           (py "register_number", register_number');
           (py "email", email);
           (py "phone", phone)] in
        r <- insert_one Validation validation_data ;;
        let (inserted_id, validation_data) := r in
        let validation_data :=
          dict_set validation_data (py "_id") (VStr (oid_str inserted_id)) in
        let json_data := dumps (VDict validation_data) in
        status_code <- requests_post e VALIDATION_SCRIPT_URL json_data ;;
        if negb (Z.eqb status_code 200) then
          ret (reply false "Failed to save data to Google Sheets.")
        else
          ret (Json (VDict [(py "valid", VBool true);
                            (py "attendee", VDict validation_data);
                            (py "message",
                             VStr (py "Validation successful. Data saved."))])).

(** The two [except] clauses of [validate]. *)
Definition validate_except (e : exn) : option (M response) :=
  match e with
  | JSONDecodeError => Some (ret (reply false "Invalid QR code format."))
  | KeyError =>
      Some (ret (reply false "Missing required information in QR code."))
  | _ => None
  end.

Definition validate (e : env) (rq : request) : M response :=
  if verb_eqb (method rq) GET then ret (Template "validation.html")
  else
    body <- request_json rq ;;
    qr_data <- py_get body "qr_data" ;;
    if negb (truthy qr_data) then ret (reply false "No QR data provided.")
    else try_except (validate_try e qr_data) validate_except.

(** ** The URL rules

    The three [@app.route] lines.  Flask adds [HEAD] to a rule that
    allows [GET] and answers [OPTIONS] itself; a path no rule matches is
    a 404 and a method the rule does not allow a 405.  An [HTTPException]
    becomes its status, any other exception a 500. *)

Inductive view := view_index | view_register | view_validate.

Definition url_map : list (pystr * (list verb * view)) :=
  [(py "/", ([GET], view_index));
   (py "/register", ([POST], view_register));
   (py "/$i$tvali", ([GET; POST], view_validate))].

Fixpoint match_rule (rules : list (pystr * (list verb * view))) (p : pystr) :
  option (list verb * view) :=
  match rules with
  | [] => None
  | (rule, target) :: rules' =>
      if pystr_eqb rule p then Some target else match_rule rules' p
  end.

Definition allowed (methods : list verb) : list verb :=
  methods
  ++ (if existsb (verb_eqb GET) methods then [HEAD] else [])
  ++ [OPTIONS].

Definition call (v : view) : env -> request -> M response :=
  match v with
  | view_index => index
  | view_register => register
  | view_validate => validate
  end.

Definition dispatch_request (e : env) (rq : request) : M response :=
  match match_rule url_map (path rq) with
  | None => raise (HTTPException 404)
  | Some (methods, v) =>
      if negb (existsb (verb_eqb (method rq)) (allowed methods))
      then raise (HTTPException 405)
      else if verb_eqb (method rq) OPTIONS then ret (Allow (allowed methods))
      else call v e rq
  end.

Definition handle (e : env) (rq : request) (w : world) : response * world :=
  match dispatch_request e rq w with
  | (Ret r, w') => (r, w')
  | (Raise (HTTPException code), w') => (ErrorPage code, w')
  | (Raise _, w') => (ErrorPage 500, w')
  end.

(** The world after a sequence of requests, each with what the outside
    answered during it. *)
Fixpoint serve (rs : list (env * request)) (w : world) : world :=
  match rs with
  | [] => w
  | (e, rq) :: rs' => serve rs' (snd (handle e rq w))
  end.

(** ** Two requests side by side

    A request to [validate] touches the outside four times: the lookup
    in the registration collection, the lookup in the validation
    collection, the insert, and the post to the ledger.  Each is one
    step on the shared world; between two steps of one request another
    request may take steps of its own. *)

Inductive pc :=
| Arrived (e : env) (rq : request)
| Registered (e : env) (attendee_info register_number : value)
| Unused (e : env) (attendee_info : value)
| Inserted (e : env) (validation_data : dict)
| Finished (r : result response).

(** Lines 142-155: decode, field check, registration lookup. *)
Definition lookup_registration (e : env) (qr_data : value) : M pc :=
  attendee_info <- json_loads qr_data ;;
  register_number <- py_get attendee_info "register_number" ;;
  present <- all_in required_fields attendee_info ;;
  if negb present then
    ret (Finished (Ret (reply false "Missing required information in QR code.")))
  else
    existing_registration <-
      M_find_one Registration (py "register_number") register_number ;;
    if negb (truthy existing_registration) then
      ret (Finished
             (Ret (reply false "Registration not found. Please register first.")))
    else ret (Registered e attendee_info register_number).

(** Lines 158-160: validation lookup. *)
Definition lookup_validation (e : env) (attendee_info register_number : value) :
  M pc :=
  existing_validation <-
    M_find_one Validation (py "register_number") register_number ;;
  if truthy existing_validation then
    ret (Finished (Ret (reply false "This QR code has already been scanned.")))
  else ret (Unused e attendee_info).

(** Lines 163-175: build the record and insert it. *)
Definition insert_validation (e : env) (attendee_info : value) : M pc :=
  name <- py_item attendee_info "name" ;;
  degree <- py_item attendee_info "degree" ;;
  class_section <- py_item attendee_info "class_section" ;;
  year <- py_item attendee_info "year" ;;
  register_number' <- py_item attendee_info "register_number" ;;
  email <- py_item attendee_info "email" ;;
  phone <- py_item attendee_info "phone" ;;
  let validation_data : dict :=
    [(py "name", name);
     (py "degree", degree);
     (py "class_section", class_section);
     (py "year", year);
     (py "register_number", register_number');
     (py "email", email);
     (py "phone", phone)] in
  r <- insert_one Validation validation_data ;;
  let (inserted_id, validation_data) := r in
  ret (Inserted e
         (dict_set validation_data (py "_id") (VStr (oid_str inserted_id)))).

(** Lines 178-185: post to the ledger and answer. *)
Definition sync_ledger (e : env) (validation_data : dict) : M pc :=
  status_code <-
    requests_post e VALIDATION_SCRIPT_URL (dumps (VDict validation_data)) ;;
  if negb (Z.eqb status_code 200) then
    ret (Finished (Ret (reply false "Failed to save data to Google Sheets.")))
  else
    ret (Finished
           (Ret (Json (VDict [(py "valid", VBool true);
                              (py "attendee", VDict validation_data);
                              (py "message",
                               VStr (py "Validation successful. Data saved."))])))).

(** A step inside the [try] block: an exception goes through the
    [except] clauses. *)
Definition guarded (m : M pc) (w : world) : pc * world :=
  match m w with
  | (Ret p, w') => (p, w')
  | (Raise x, w') =>
      match validate_except x with
      | Some k => let (r, w'') := k w' in (Finished r, w'')
      | None => (Finished (Raise x), w')
      end
  end.

Definition step (p : pc) (w : world) : pc * world :=
  match p with
  | Arrived e rq =>
      if verb_eqb (method rq) GET
      then (Finished (Ret (Template "validation.html")), w)
      else
        match (body <- request_json rq ;; py_get body "qr_data") w with
        | (Raise x, w') => (Finished (Raise x), w')
        | (Ret qr_data, w') =>
            if negb (truthy qr_data)
            then (Finished (Ret (reply false "No QR data provided.")), w')
            else guarded (lookup_registration e qr_data) w'
        end
  | Registered e attendee_info register_number =>
      guarded (lookup_validation e attendee_info register_number) w
  | Unused e attendee_info => guarded (insert_validation e attendee_info) w
  | Inserted e validation_data => guarded (sync_ledger e validation_data) w
  | Finished r => (Finished r, w)
  end.

(** One request run to its end with nothing in between. *)
Definition alone (p : pc) (w : world) : pc * world :=
  let (p1, w1) := step p w in
  let (p2, w2) := step p1 w1 in
  let (p3, w3) := step p2 w2 in
  step p3 w3.

Inductive thread := T1 | T2.

(** Two requests under a schedule: the thread named next takes a step. *)
Fixpoint interleave (sched : list thread) (a b : pc) (w : world) :
  pc * pc * world :=
  match sched with
  | [] => (a, b, w)
  | T1 :: sched' => let (a', w') := step a w in interleave sched' a' b w'
  | T2 :: sched' => let (b', w') := step b w in interleave sched' a b' w'
  end.

(** ** The vocabulary of the specification

    The outcomes the specification names, as the responses the source
    builds for them. *)

Definition MalformedPayload : response :=
  reply false "Invalid QR code format.".
Definition IncompleteRecord : response :=
  reply false "Missing required information in QR code.".
Definition UnknownRegistration : response :=
  reply false "Registration not found. Please register first.".
Definition AlreadyUsed : response :=
  reply false "This QR code has already been scanned.".
Definition LedgerSyncFailed : response :=
  reply false "Failed to save data to Google Sheets.".
Definition NoQRData : response :=
  reply false "No QR data provided.".
Definition ACCEPTED (validation_record : dict) : response :=
  Json (VDict [(py "valid", VBool true);
               (py "attendee", VDict validation_record);
               (py "message", VStr (py "Validation successful. Data saved."))]).

(** A scan submission: [POST] with the JSON body [{qr_data: payload}]. *)
Definition scan (url : pystr) (payload : pystr) : request :=
  {| method := POST;
     path := url;
     form := [];
     json := JsonBody (VDict [(py "qr_data", VStr payload)]) |}.

(** The payload decodes to the record [d]. *)
Definition decodes_to (payload : pystr) (d : dict) : Prop :=
  decode payload = Parsed (VDict d) [].

(** The record holds the seven required fields. *)
Definition complete (d : dict) : bool :=
  forallb (fun f => dict_mem d (py f)) required_fields.

(** [d.get(k)] *)
Definition get (d : dict) (k : string) : value :=
  match dict_get d (py k) with
  | Some v => v
  | None => VNone
  end.

(** Some document of the collection has this [register_number]. *)
Definition has_record (c : collection) (register_number : value) : bool :=
  truthy (find_one c (py "register_number") register_number).

(** The seven fields of a complete record, in the order of
    [validation_data]. *)
Definition fields_of (d : dict) : dict :=
  map (fun f => (py f, get d f)) required_fields.

(** The document the accepting branch stores for the record [d], the
    dict it returns as [attendee], and the world it leaves. *)
Definition validation_record (d : dict) (w : world) : document :=
  dict_set (fields_of d) (py "_id") (VOid (next_id w)).

Definition attendee_of (d : dict) (w : world) : dict :=
  dict_set (validation_record d w) (py "_id") (VStr (oid_str (next_id w))).

Definition synced (d : dict) (w : world) : world :=
  posted VALIDATION_SCRIPT_URL (dumps (VDict (attendee_of d w)))
    (stored Validation (validation_record d w) w).

(** The transition algorithm of section 4.2 of the specification, for a
    payload that decoded to the record [d]: steps 1 (required fields),
    2, 3, then the insert and the ledger sync of steps 4 to 6. *)
Definition transition (e : env) (d : dict) (w : world) :
  result response * world :=
  if negb (complete d) then (Ret IncompleteRecord, w)
  else if negb (has_record (registration_collection w) (get d "register_number"))
  then (Ret UnknownRegistration, w)
  else if has_record (validation_collection w) (get d "register_number")
  then (Ret AlreadyUsed, w)
  else
    match ledger_reply e with
    | StatusCode code =>
        if Z.eqb code 200 then (Ret (ACCEPTED (attendee_of d w)), synced d w)
        else (Ret LedgerSyncFailed, synced d w)
    | Unreachable => (Raise ConnectionError, synced d w)
    end.

(** [request.form.get(k)]: the first value sent for [k]. *)
Fixpoint form_value (f : list (pystr * pystr)) (k : string) : option pystr :=
  match f with
  | [] => None
  | (k', v) :: f' => if pystr_eqb k' (py k) then Some v else form_value f' k
  end.

(** The dict [register] builds from a form that has the seven fields. *)
Definition attendee_info_of (f : list (pystr * pystr)) : option dict :=
  match form_value f "name", form_value f "degree",
        form_value f "class_section", form_value f "year",
        form_value f "register_number", form_value f "email",
        form_value f "phone" with
  | Some name, Some degree, Some class_section, Some year,
    Some register_number, Some email, Some phone =>
      Some [(py "name", VStr name);
            (py "degree", VStr degree);
            (py "class_section", VStr class_section);
            (py "year", VStr year);
            (py "register_number", VStr register_number);
            (py "email", VStr email);
            (py "phone", VStr phone)]
  | _, _, _, _, _, _, _ => None
  end.

(** The outcome the specification calls [DuplicateRegistration]: the
    flashed message and the redirect to the form. *)
Definition DuplicateRegistration (w : world) : result response * world :=
  (Ret (RedirectTo url_index),
   flashed "You have already registered. Please check your details and try again."
           "error" w).

(** A code point that UTF-8 text can hold: in range and no surrogate. *)
Definition scalar (c : N) : bool :=
  N.ltb c 55296 || (N.ltb 57343 c && N.leb c 1114111).

(** The JSON object [{valid: bool, message: string}], with or without
    an [attendee] member between the two. *)
Definition validation_reply (r : response) : Prop :=
  (exists valid message,
      r = Json (VDict [(py "valid", VBool valid);
                       (py "message", VStr message)]))
  \/ (exists valid attendee message,
         r = Json (VDict [(py "valid", VBool valid);
                          (py "attendee", VDict attendee);
                          (py "message", VStr message)])).

(** The collections of [w'] hold the documents of [w], in place, and
    possibly more after them. *)
Definition extends (w w' : world) : Prop :=
  (exists more, docs (registration_collection w')
                = docs (registration_collection w) ++ more)
  /\ (exists more, docs (validation_collection w')
                   = docs (validation_collection w) ++ more).

(** A computation only ever adds documents. *)
Definition grows {A} (m : M A) : Prop := forall w, extends w (snd (m w)).

(** A computation returns only values that satisfy [P]. *)
Definition returns {A} (P : A -> Prop) (m : M A) : Prop :=
  forall w r w', m w = (Ret r, w') -> P r.

(** ** Sample data *)

Definition no_index : collection :=
  {| docs := []; unique_register_number := false |}.

Definition world0 : world :=
  {| registration_collection := no_index;
     validation_collection := no_index;
     next_id := 0;
     ledger := [];
     outbox := [];
     flashes := [] |}.

Definition env_ok : env := {| ledger_reply := StatusCode 200; smtp_ok := true |}.

Definition env_down : env :=
  {| ledger_reply := StatusCode 503; smtp_ok := true |}.

Definition validate_url : pystr := py "/$i$tvali".

Definition asha_form : list (pystr * pystr) :=
  [(py "name", py "Asha");
   (py "degree", py "BE");
   (py "class_section", py "A");
   (py "year", py "2");
   (py "register_number", py "R100");
   (py "email", py "a@x.com");
   (py "phone", py "9000000000")].

Definition asha_registration : request :=
  {| method := POST; path := py "/register"; form := asha_form; json := NoJson |}.

(** The world after Asha registered, and the payload mailed to her. *)
Definition asha_world : world := snd (handle env_ok asha_registration world0).

Definition asha_payload : pystr :=
  match outbox asha_world with
  | m :: _ => mail_qr m
  | [] => []
  end.

(** What the payload decodes to. *)
Definition asha_record : dict :=
  match decode asha_payload with
  | Parsed (VDict d) _ => d
  | _ => []
  end.

(** ** Records of text

    The dicts [register] serializes: text keys, and values that are
    text or an [ObjectId]. *)

(** The members of a dict after the first, as [dumps] writes them. *)
Fixpoint dumps_members (d : dict) : pystr :=
  match d with
  | [] => []
  | (k, y) :: d' =>
      py ", " ++ encode_basestring_ascii k ++ py ": " ++ dumps y
      ++ dumps_members d'
  end.

(** [ObjectIdEncoder.default]: an [ObjectId] is written as its [str]. *)
Definition ObjectIdEncoder_default (obj : value) : value :=
  match obj with
  | VOid id => VStr (oid_str id)
  | _ => obj
  end.

Definition text (s : pystr) : bool := forallb scalar s.

Definition text_value (v : value) : bool :=
  match v with
  | VStr s => text s
  | VOid _ => true
  | _ => false
  end.

Definition text_record (d : dict) : bool :=
  forallb (fun kv => text (fst kv) && text_value (snd kv)) d.

Definition as_read (d : dict) : dict :=
  map (fun kv => (fst kv, ObjectIdEncoder_default (snd kv))) d.

(** Asha's AttendeeRecord as [register] builds it, and as stored. *)
Definition asha_info : dict :=
  match attendee_info_of asha_form with
  | Some info => info
  | None => []
  end.

Definition asha_stored : document :=
  match docs (registration_collection asha_world) with
  | d :: _ => d
  | [] => []
  end.

(** ** Where a racing request stands

    Two requests carry the same payload, which decodes to the complete
    record [d], and the ledger answers 200 to both.  A request has not
    looked at the validation collection yet ([Before]), has found it
    without the record and is about to insert ([Committed]), has
    inserted ([Wrote]), or was turned away, by the lookup ([Used]) or by
    the index ([Dup]). *)

Inductive stage := Before | Committed | Wrote | Used | Dup.

Inductive thread_at (payload : pystr) (d : dict) : stage -> pc -> Prop :=
| at_arrived e url :
    ledger_reply e = StatusCode 200 ->
    thread_at payload d Before (Arrived e (scan url payload))
| at_registered e :
    ledger_reply e = StatusCode 200 ->
    thread_at payload d Before
      (Registered e (VDict d) (get d "register_number"))
| at_unused e :
    ledger_reply e = StatusCode 200 ->
    thread_at payload d Committed (Unused e (VDict d))
| at_inserted e validation_data :
    ledger_reply e = StatusCode 200 ->
    thread_at payload d Wrote (Inserted e validation_data)
| at_accepted validation_data :
    thread_at payload d Wrote (Finished (Ret (ACCEPTED validation_data)))
| at_used : thread_at payload d Used (Finished (Ret AlreadyUsed))
| at_dup : thread_at payload d Dup (Finished (Raise DuplicateKeyError)).

Record race_inv (index : bool) (payload : pystr) (d : dict)
    (sa sb : stage) (a b : pc) (w : world) : Prop := {
  inv_a : thread_at payload d sa a;
  inv_b : thread_at payload d sb b;
  inv_index :
    unique_register_number (validation_collection w) = index;
  inv_registered :
    has_record (registration_collection w) (get d "register_number") = true;
  inv_written :
    has_record (validation_collection w) (get d "register_number") = true
    <-> (sa = Wrote \/ sb = Wrote);
  inv_refused_a : sa = Used \/ sa = Dup -> sb = Wrote;
  inv_refused_b : sb = Used \/ sb = Dup -> sa = Wrote;
  inv_dup : sa = Dup \/ sb = Dup -> index = true;
  inv_once : index = true -> ~ (sa = Wrote /\ sb = Wrote)
}.

(** The reply is an acceptance. *)
Definition accepted (r : result response) : Prop :=
  exists validation_data, r = Ret (ACCEPTED validation_data).

(** Both lookups first, then both inserts. *)
Definition both_look_first : list thread :=
  [T1; T1; T2; T2; T1; T1; T2; T2].

(** One request after the other. *)
Definition one_by_one : list thread :=
  [T1; T1; T1; T1; T2; T2; T2; T2].

(** Asha's world in a deployment that has the unique index. *)
Definition with_index (c : collection) : collection :=
  {| docs := docs c; unique_register_number := true |}.

Definition asha_world_indexed : world :=
  {| registration_collection := with_index (registration_collection asha_world);
     validation_collection := with_index (validation_collection asha_world);
     next_id := next_id asha_world;
     ledger := ledger asha_world;
     outbox := outbox asha_world;
     flashes := flashes asha_world |}.

(** ** The invariants of the data model (section 3 of the specification) *)

(** At most one document of the collection per [register_number]. *)
Definition single_record (c : collection) : Prop :=
  forall r,
    (List.length (filter (field_is (py "register_number") r) (docs c)) <= 1)%nat.

(** Every validation record has the [register_number] of a stored
    registration. *)
Definition validated_are_registered (w : world) : Prop :=
  forall doc,
    In doc (docs (validation_collection w)) ->
    has_record (registration_collection w) (get doc "register_number") = true.

Definition data_model (w : world) : Prop :=
  single_record (registration_collection w)
  /\ single_record (validation_collection w)
  /\ validated_are_registered w.

(** ** What a registration leaves

    For the dict [info] that [register] built from the form: the
    document it stores, the text it serializes for the ledger and the
    QR code, the mail it sends, and the world after the insert and the
    post. *)

Definition text_of (v : value) : pystr :=
  match v with
  | VStr s => s
  | _ => []
  end.

Definition stored_registration (info : dict) (w : world) : document :=
  dict_set info (py "_id") (VOid (next_id w)).

Definition qr_payload (info : dict) (w : world) : pystr :=
  dumps (VDict (stored_registration info w)).

Definition confirmation (info : dict) (w : world) : mail :=
  {| mail_name := text_of (get info "name");
     mail_register_number := text_of (get info "register_number");
     mail_to := text_of (get info "email");
     mail_qr := generate_qr_code (qr_payload info w) |}.

Definition registered (info : dict) (w : world) : world :=
  posted REGISTRATION_SCRIPT_URL (qr_payload info w)
    (stored Registration (stored_registration info w) w).

(** Lines 108-129 of [register], for an [info] not yet registered. *)
Definition registration_outcome (e : env) (info : dict) (w : world) :
  result response * world :=
  match ledger_reply e with
  | Unreachable => (Raise ConnectionError, registered info w)
  | StatusCode code =>
      if Z.eqb code 200 then
        if smtp_ok e
        then (Ret (Template "thanks.html"),
              mailed (confirmation info w) (registered info w))
        else (Ret (Template "thanks.html"),
              flashed "Failed to send email with QR code. Please contact the event organizers."
                      "error" (registered info w))
      else
        (Ret (RedirectTo url_index),
         flashed "Failed to save data to Google Sheets. Please try again later."
                 "error" (registered info w))
  end.

(** The record a scan of a registered payload decodes to. *)
Definition scanned (info : dict) (w : world) : dict :=
  as_read (stored_registration info w).

(** ** Two registrations side by side

    A request to [register] touches the outside four times: the lookup
    in the registration collection, the insert, the post to the ledger
    and the mail.  Each is one step on the shared world. *)

Inductive reg_pc :=
| RArrived (e : env) (rq : request)
| RChecked (e : env) (name register_number email : pystr) (attendee_info : dict)
| RStored (e : env) (name register_number email json_data : pystr)
| RPosted (e : env) (name register_number email json_data : pystr)
| RFinished (r : result response).

(** Lines 92-106: read the form, look the registration up. *)
Definition reg_lookup (e : env) (rq : request) : M reg_pc :=
  name <- form_get (form rq) (py "name") ;;
  degree <- form_get (form rq) (py "degree") ;;
  class_section <- form_get (form rq) (py "class_section") ;;
  year <- form_get (form rq) (py "year") ;;
  register_number <- form_get (form rq) (py "register_number") ;;
  email <- form_get (form rq) (py "email") ;;
  phone <- form_get (form rq) (py "phone") ;;
  let attendee_info : dict :=
    [(py "name", VStr name);
     (py "degree", VStr degree);
     (py "class_section", VStr class_section);
     (py "year", VStr year);
     (py "register_number", VStr register_number);
     (py "email", VStr email);
     (py "phone", VStr phone)] in
  existing_registration <-
    M_find_one Registration (py "register_number") (VStr register_number) ;;
  if truthy existing_registration then
    flash "You have already registered. Please check your details and try again."
          "error" ;;;
    ret (RFinished (Ret (RedirectTo url_index)))
  else ret (RChecked e name register_number email attendee_info).

(** Lines 109-115: insert, attach the id, serialize. *)
Definition reg_insert (e : env) (name register_number email : pystr)
    (attendee_info : dict) : M reg_pc :=
  r <- insert_one Registration attendee_info ;;
  let (inserted_id, attendee_info) := r in
  let attendee_info := dict_set attendee_info (py "_id") (VOid inserted_id) in
  ret (RStored e name register_number email (dumps (VDict attendee_info))).

(** Lines 118-121: post to the ledger. *)
Definition reg_post (e : env) (name register_number email json_data : pystr) :
  M reg_pc :=
  status_code <- requests_post e REGISTRATION_SCRIPT_URL json_data ;;
  if negb (Z.eqb status_code 200) then
    flash "Failed to save data to Google Sheets. Please try again later."
          "error" ;;;
    ret (RFinished (Ret (RedirectTo url_index)))
  else ret (RPosted e name register_number email json_data).

(** Lines 124-129: the QR code, the mail, the confirmation page. *)
Definition reg_mail (e : env) (name register_number email json_data : pystr) :
  M reg_pc :=
  let qr_img := generate_qr_code json_data in
  send_email_with_qr e name register_number email qr_img ;;;
  ret (RFinished (Ret (Template "thanks.html"))).

(** [register] has no [try]: an exception ends the request. *)
Definition unguarded (m : M reg_pc) (w : world) : reg_pc * world :=
  match m w with
  | (Ret p, w') => (p, w')
  | (Raise x, w') => (RFinished (Raise x), w')
  end.

Definition reg_step (p : reg_pc) (w : world) : reg_pc * world :=
  match p with
  | RArrived e rq => unguarded (reg_lookup e rq) w
  | RChecked e name register_number email attendee_info =>
      unguarded (reg_insert e name register_number email attendee_info) w
  | RStored e name register_number email json_data =>
      unguarded (reg_post e name register_number email json_data) w
  | RPosted e name register_number email json_data =>
      unguarded (reg_mail e name register_number email json_data) w
  | RFinished r => (RFinished r, w)
  end.

Definition reg_alone (p : reg_pc) (w : world) : reg_pc * world :=
  let (p1, w1) := reg_step p w in
  let (p2, w2) := reg_step p1 w1 in
  let (p3, w3) := reg_step p2 w2 in
  reg_step p3 w3.

Fixpoint reg_interleave (sched : list thread) (a b : reg_pc) (w : world) :
  reg_pc * reg_pc * world :=
  match sched with
  | [] => (a, b, w)
  | T1 :: sched' =>
      let (a', w') := reg_step a w in reg_interleave sched' a' b w'
  | T2 :: sched' =>
      let (b', w') := reg_step b w in reg_interleave sched' a b' w'
  end.

(** Both lookups first, then each request to its end. *)
Definition both_check_first : list thread :=
  [T1; T2; T1; T1; T1; T2; T2; T2].

(** ** More sample data *)

(** A form where the phone field was left out. *)
Definition form_without_phone : list (pystr * pystr) :=
  [(py "name", py "Asha");
   (py "degree", py "BE");
   (py "class_section", py "A");
   (py "year", py "2");
   (py "register_number", py "R100");
   (py "email", py "a@x.com")].

Definition registration_without_phone : request :=
  {| method := POST; path := py "/register"; form := form_without_phone;
     json := NoJson |}.

(** A second attendee who enters Asha's register number. *)
Definition bala_form : list (pystr * pystr) :=
  [(py "name", py "Bala");
   (py "degree", py "BE");
   (py "class_section", py "B");
   (py "year", py "2");
   (py "register_number", py "R100");
   (py "email", py "b@x.com");
   (py "phone", py "9000000001")].

Definition bala_registration : request :=
  {| method := POST; path := py "/register"; form := bala_form; json := NoJson |}.

Definition bala_info : dict :=
  match attendee_info_of bala_form with
  | Some info => info
  | None => []
  end.

(** The ledger cannot be reached; the mail server is down. *)
Definition env_unreachable : env :=
  {| ledger_reply := Unreachable; smtp_ok := true |}.

Definition env_no_mail : env :=
  {| ledger_reply := StatusCode 200; smtp_ok := false |}.

(** A [GET] that carries a scan submission's body. *)
Definition get_with_payload : request :=
  {| method := GET; path := validate_url; form := [];
     json := JsonBody (VDict [(py "qr_data", VStr asha_payload)]) |}.

(** * Properties *)

(** ** Python values and collections *)

Lemma pystr_eqb_refl (a : pystr) : pystr_eqb a a = true.
Proof.
  induction a as [|x a IH]; simpl; [reflexivity|].
  now rewrite N.eqb_refl.
Qed.

Lemma pystr_eqb_eq (a b : pystr) : pystr_eqb a b = true <-> a = b.
Proof.
  split.
  - revert b. induction a as [|x a IH]; intros [|y b] H; simpl in H;
      try discriminate; [reflexivity|].
    apply andb_true_iff in H as [Hx Hr].
    apply N.eqb_eq in Hx. apply IH in Hr. now subst.
  - intros ->. apply pystr_eqb_refl.
Qed.

Lemma value_eqb_refl : forall v : value, value_eqb v v = true.
Proof.
  fix IHv 1.
  intros [|b|z|lit|s|l|d|id]; simpl.
  - reflexivity.
  - apply Bool.eqb_reflx.
  - apply Z.eqb_refl.
  - apply pystr_eqb_refl.
  - apply pystr_eqb_refl.
  - induction l as [|x l IH]; [reflexivity|].
    rewrite IHv. exact IH.
  - induction d as [|[k x] d IH]; [reflexivity|].
    rewrite pystr_eqb_refl, IHv. exact IH.
  - apply N.eqb_refl.
Qed.

Lemma all_in_dict (fs : list string) (d : dict) (w : world) :
  all_in fs (VDict d) w = (Ret (forallb (fun f => dict_mem d (py f)) fs), w).
Proof.
  induction fs as [|f fs IH]; [reflexivity|].
  simpl. unfold bind, py_in, ret.
  destruct (dict_mem d (py f)); simpl; [exact IH | reflexivity].
Qed.

Lemma field_is_nonempty k v d : field_is k v d = true -> truthy (VDict d) = true.
Proof.
  unfold field_is. destruct d; simpl; [discriminate | reflexivity].
Qed.

Lemma truthy_find_first ds k v :
  truthy (find_first ds k v) = existsb (field_is k v) ds.
Proof.
  induction ds as [|d ds IH]; [reflexivity|].
  simpl. destruct (field_is k v d) eqn:E; simpl; [|exact IH].
  eapply field_is_nonempty; eauto.
Qed.

Lemma has_record_add_doc c d r :
  has_record (add_doc c d) r
  = has_record c r || field_is (py "register_number") r d.
Proof.
  unfold has_record, find_one, add_doc. simpl docs.
  rewrite !truthy_find_first, existsb_app. simpl. now rewrite orb_false_r.
Qed.

Lemma decode_nonempty s v r : decode s = Parsed v r -> truthy (VStr s) = true.
Proof.
  destruct s; [discriminate | reflexivity].
Qed.

Lemma complete_get d f :
  complete d = true -> In f required_fields -> dict_get d (py f) = Some (get d f).
Proof.
  unfold complete. rewrite forallb_forall. intros H Hin.
  specialize (H f Hin). unfold dict_mem, get in *.
  destruct (dict_get d (py f)); [reflexivity | discriminate].
Qed.
(** ** The transition of [validate]

    A scan whose payload decodes to a record is the transition
    algorithm of the specification on that record. *)

Lemma validate_scan e url payload d w :
  decodes_to payload d ->
  validate e (scan url payload) w = transition e d w.
Proof.
  intros Hd.
  unfold validate, scan, transition. cbn [method json verb_eqb].
  unfold bind at 1. unfold request_json. cbn [json]. unfold ret at 1.
  unfold bind at 1. unfold py_get at 1.
  change (dict_get [(py "qr_data", VStr payload)] (py "qr_data"))
    with (Some (VStr payload)).
  unfold ret at 1.
  rewrite (decode_nonempty _ Hd). cbn [negb].
  unfold try_except, validate_try.
  unfold bind at 1. unfold json_loads. rewrite Hd. unfold ret at 1.
  unfold bind at 1. unfold py_get at 1. unfold ret at 1.
  unfold bind at 1. rewrite all_in_dict. fold (complete d).
  destruct (complete d) eqn:Hc; cbn [negb]; [|reflexivity].
  unfold bind at 1. unfold M_find_one at 1. cbn [coll].
  fold (get d "register_number").
  fold (has_record (registration_collection w) (get d "register_number")).
  destruct (has_record (registration_collection w) _) eqn:Hr; cbn [negb];
    [|reflexivity].
  unfold bind at 1. unfold M_find_one at 1. cbn [coll].
  fold (has_record (validation_collection w) (get d "register_number")).
  destruct (has_record (validation_collection w) _) eqn:Hv; [reflexivity|].
  unfold py_item.
  rewrite !(complete_get _ Hc) by (simpl; tauto).
  unfold bind, ret, insert_one, violates_index. cbn [coll].
  change [(py "name", get d "name"); (py "degree", get d "degree");
          (py "class_section", get d "class_section"); (py "year", get d "year");
          (py "register_number", get d "register_number");
          (py "email", get d "email"); (py "phone", get d "phone")]
    with (fields_of d).
  change (dict_get (fields_of d) (py "register_number"))
    with (Some (get d "register_number")).
  cbv beta iota.
  unfold has_record in Hv. rewrite Hv, andb_false_r.
  unfold requests_post.
  destruct (ledger_reply e) as [c|]; [|reflexivity].
  destruct (Z.eqb c 200); reflexivity.
Qed.

Lemma record_matches d w :
  field_is (py "register_number") (get d "register_number")
    (validation_record d w) = true.
Proof.
  unfold field_is, validation_record.
  change (dict_get (dict_set (fields_of d) (py "_id") (VOid (next_id w)))
            (py "register_number"))
    with (Some (get d "register_number")).
  apply value_eqb_refl.
Qed.

Lemma synced_validation d w :
  validation_collection (synced d w)
  = add_doc (validation_collection w) (validation_record d w).
Proof. reflexivity. Qed.

Lemma synced_has_record d w :
  has_record (validation_collection (synced d w)) (get d "register_number")
  = true.
Proof.
  rewrite synced_validation, has_record_add_doc, record_matches.
  apply orb_true_r.
Qed.



(** ** Rules for computations *)

Lemma extends_refl w : extends w w.
Proof. split; exists []; now rewrite app_nil_r. Qed.

Lemma extends_trans w1 w2 w3 : extends w1 w2 -> extends w2 w3 -> extends w1 w3.
Proof.
  intros [[a Ha] [b Hb]] [[a' Ha'] [b' Hb']]. split.
  - exists (a ++ a'). now rewrite Ha', Ha, app_assoc.
  - exists (b ++ b'). now rewrite Hb', Hb, app_assoc.
Qed.

Lemma extends_same w w' :
  registration_collection w' = registration_collection w ->
  validation_collection w' = validation_collection w ->
  extends w w'.
Proof. intros H1 H2. split; exists []; now rewrite ?H1, ?H2, app_nil_r. Qed.

Lemma grows_ret A (a : A) : grows (ret a).
Proof. intros w. apply extends_refl. Qed.

Lemma grows_raise A e : grows (@raise A e).
Proof. intros w. apply extends_refl. Qed.

Lemma grows_bind A B (m : M A) (k : A -> M B) :
  grows m -> (forall a, grows (k a)) -> grows (bind m k).
Proof.
  intros Hm Hk w. unfold bind. specialize (Hm w).
  destruct (m w) as [[a|x] w1]; cbn [snd] in *; [|exact Hm].
  eapply extends_trans; [exact Hm | apply Hk].
Qed.

Lemma grows_try_except A (m : M A) h :
  grows m -> (forall x k, h x = Some k -> grows k) -> grows (try_except m h).
Proof.
  intros Hm Hh w. unfold try_except. specialize (Hm w).
  destruct (m w) as [[a|x] w1]; cbn [snd] in *; [exact Hm|].
  destruct (h x) as [k|] eqn:E; [|exact Hm].
  eapply extends_trans; [exact Hm | eapply Hh; eauto].
Qed.

Lemma grows_if A (b : bool) (m1 m2 : M A) :
  grows m1 -> grows m2 -> grows (if b then m1 else m2).
Proof. now destruct b. Qed.

Lemma grows_find_one c k v : grows (M_find_one c k v).
Proof. intros w. apply extends_refl. Qed.

Lemma grows_insert_one c d : grows (insert_one c d).
Proof.
  intros w. unfold insert_one.
  destruct (violates_index (coll c w) d); cbn [snd]; [apply extends_refl|].
  destruct c; split; cbn; eexists; try reflexivity; now rewrite app_nil_r.
Qed.

Lemma grows_requests_post e url body : grows (requests_post e url body).
Proof.
  intros w. unfold requests_post.
  destruct (ledger_reply e); now apply extends_same.
Qed.

Lemma grows_flash m c : grows (flash m c).
Proof. intros w. now apply extends_same. Qed.

Lemma grows_send_email e a b c d : grows (send_email_with_qr e a b c d).
Proof.
  intros w. unfold send_email_with_qr.
  destruct (smtp_ok e); now apply extends_same.
Qed.

Lemma grows_form_get f k : grows (form_get f k).
Proof.
  induction f as [|[k' v] f IH]; simpl; [apply grows_raise|].
  destruct (pystr_eqb k' k); [apply grows_ret | exact IH].
Qed.

Lemma grows_py_get o k : grows (py_get o k).
Proof. destruct o; first [apply grows_ret | apply grows_raise]. Qed.

Lemma grows_py_item o k : grows (py_item o k).
Proof.
  destruct o; try apply grows_raise. simpl.
  destruct (dict_get d (py k)); [apply grows_ret | apply grows_raise].
Qed.

Lemma grows_py_in k o : grows (py_in k o).
Proof. destruct o; first [apply grows_ret | apply grows_raise]. Qed.

Lemma grows_all_in fs o : grows (all_in fs o).
Proof.
  induction fs as [|f fs IH]; simpl; [apply grows_ret|].
  apply grows_bind; [apply grows_py_in|].
  intros b. apply grows_if; [exact IH | apply grows_ret].
Qed.

Lemma grows_json_loads x : grows (json_loads x).
Proof.
  destruct x; try apply grows_raise. simpl.
  destruct (decode s); first [apply grows_ret | apply grows_raise].
Qed.

Lemma grows_request_json rq : grows (request_json rq).
Proof.
  unfold request_json. destruct (json rq); first [apply grows_ret | apply grows_raise].
Qed.

Create HintDb grows.
#[local] Hint Resolve grows_ret grows_raise grows_find_one grows_insert_one
  grows_requests_post grows_flash grows_send_email grows_form_get grows_py_get
  grows_py_item grows_py_in grows_all_in grows_json_loads grows_request_json
  : grows.

Ltac grows_step :=
  first
    [ apply grows_bind; [|intro]
    | apply grows_if
    | apply grows_try_except
    | match goal with |- grows (let (_, _) := ?r in _) => destruct r end
    | solve [auto with grows] ].

Lemma grows_validate e rq : grows (validate e rq).
Proof.
  unfold validate, validate_try. repeat grows_step.
  intros x k. destruct x; cbn; intros E; inversion E; auto with grows.
Qed.

Lemma grows_register e rq : grows (register e rq).
Proof. unfold register. repeat grows_step. Qed.

Lemma grows_dispatch e rq : grows (dispatch_request e rq).
Proof.
  unfold dispatch_request.
  destruct (match_rule url_map (path rq)) as [[ms v]|]; [|apply grows_raise].
  repeat grows_step.
  destruct v; cbn [call]; [unfold index; auto with grows
                          | apply grows_register | apply grows_validate].
Qed.

Lemma handle_extends e rq w : extends w (snd (handle e rq w)).
Proof.
  unfold handle. pose proof (grows_dispatch e rq w) as H.
  destruct (dispatch_request e rq w) as [[r|x] w']; cbn [snd] in *; [exact H|].
  destruct x; exact H.
Qed.

Lemma serve_extends rs : forall w, extends w (serve rs w).
Proof.
  induction rs as [|[e rq] rs IH]; intros w; simpl; [apply extends_refl|].
  eapply extends_trans; [apply handle_extends | apply IH].
Qed.

(** ** Single use *)

Lemma has_record_more c c' more r :
  docs c' = docs c ++ more -> has_record c r = true -> has_record c' r = true.
Proof.
  unfold has_record, find_one. intros ->.
  rewrite !truthy_find_first, existsb_app. intros ->. reflexivity.
Qed.

Lemma has_record_extends w w' r :
  extends w w' ->
  (has_record (registration_collection w) r = true ->
   has_record (registration_collection w') r = true)
  /\ (has_record (validation_collection w) r = true ->
      has_record (validation_collection w') r = true).
Proof.
  intros [[a Ha] [b Hb]]. split; eapply has_record_more; eauto.
Qed.


(** ** The order of the checks *)

Lemma decode_rest s v r : decode s = Parsed v r -> r = [].
Proof.
  unfold decode.
  destruct (scan_once _ _) as [v' rest| |]; try discriminate.
  destruct (skip_ws rest); [|discriminate].
  now intros [= _ <-].
Qed.

(** What [validate] answers to a scan, by what the payload decodes to. *)
Lemma validate_scan_cases e url payload w :
  validate e (scan url payload) w =
  match payload with
  | [] => (Ret NoQRData, w)
  | _ :: _ =>
      match decode payload with
      | Malformed => (Ret MalformedPayload, w)
      | OutOfFuel => (Raise RecursionError, w)
      | Parsed (VDict d) _ => transition e d w
      | Parsed _ _ => (Raise AttributeError, w)
      end
  end.
Proof.
  destruct payload as [|c p]; [reflexivity|].
  destruct (decode (c :: p)) as [v rest| |] eqn:E.
  - pose proof (decode_rest _ E) as ->.
    destruct v; try (now apply validate_scan);
      unfold validate, scan; cbn [method json verb_eqb];
      unfold bind at 1; unfold request_json; cbn [json]; unfold ret at 1;
      unfold bind at 1; unfold py_get at 1;
      change (dict_get [(py "qr_data", VStr (c :: p))] (py "qr_data"))
        with (Some (VStr (c :: p)));
      unfold ret at 1; cbn [truthy negb];
      unfold try_except, validate_try;
      unfold bind at 1; unfold json_loads; rewrite E; reflexivity.
  - unfold validate, scan; cbn [method json verb_eqb];
      unfold bind at 1; unfold request_json; cbn [json]; unfold ret at 1;
      unfold bind at 1; unfold py_get at 1;
      change (dict_get [(py "qr_data", VStr (c :: p))] (py "qr_data"))
        with (Some (VStr (c :: p)));
      unfold ret at 1; cbn [truthy negb];
      unfold try_except, validate_try;
      unfold bind at 1; unfold json_loads; rewrite E; reflexivity.
  - unfold validate, scan; cbn [method json verb_eqb];
      unfold bind at 1; unfold request_json; cbn [json]; unfold ret at 1;
      unfold bind at 1; unfold py_get at 1;
      change (dict_get [(py "qr_data", VStr (c :: p))] (py "qr_data"))
        with (Some (VStr (c :: p)));
      unfold ret at 1; cbn [truthy negb];
      unfold try_except, validate_try;
      unfold bind at 1; unfold json_loads; rewrite E; reflexivity.
Qed.


(** Only the accepting branch of the transition writes. *)
Lemma transition_frame e d w :
  snd (transition e d w) = w
  \/ (complete d = true
      /\ has_record (registration_collection w) (get d "register_number") = true
      /\ has_record (validation_collection w) (get d "register_number") = false
      /\ snd (transition e d w) = synced d w).
Proof.
  unfold transition.
  destruct (complete d); cbn [negb]; [|now left].
  destruct (has_record (registration_collection w) _); cbn [negb]; [|now left].
  destruct (has_record (validation_collection w) _); [now left|].
  right. repeat split.
  destruct (ledger_reply e) as [c|]; [destruct (Z.eqb c 200)|]; reflexivity.
Qed.


(** C3, at the failing input.  The payload [5] is JSON but no object:
    [attendee_info.get] raises [AttributeError], neither [except] clause
    catches it, and the request ends as a 500 instead of a
    [{valid: false, message}] reply. *)
Theorem bare_number_raises e url w :
  validate e (scan url (py "5")) w = (Raise AttributeError, w)
  /\ handle e (scan (py "/$i$tvali") (py "5")) w = (ErrorPage 500, w).
Proof.
  split.
  - now rewrite validate_scan_cases.
  - unfold handle, dispatch_request.
    change (match_rule url_map (path (scan (py "/$i$tvali") (py "5"))))
      with (Some ([GET; POST], view_validate)).
    cbn [allowed existsb verb_eqb scan method negb orb app call].
    change (validate e {| method := POST; path := py "/$i$tvali"; form := [];
                          json := JsonBody (VDict [(py "qr_data", VStr (py "5"))]) |} w)
      with (validate e (scan (py "/$i$tvali") (py "5")) w).
    now rewrite validate_scan_cases.
Qed.

(** Every payload that is JSON but no object ends the same way: the
    [.get] on the decoded value raises [AttributeError] out of the
    view, and nothing is written. *)
Lemma non_object_payload_raises e url payload v w :
  decode payload = Parsed v [] ->
  (forall d, v <> VDict d) ->
  validate e (scan url payload) w = (Raise AttributeError, w).
Proof.
  intros Hd Hv. rewrite validate_scan_cases.
  destruct payload as [|c p]; [discriminate|]. rewrite Hd.
  destruct v; try reflexivity. now destruct (Hv d).
Qed.

(** ** Registration *)

Lemma form_get_value f k w :
  form_get f (py k) w =
  match form_value f k with
  | Some v => (Ret v, w)
  | None => (Raise (HTTPException 400), w)
  end.
Proof.
  induction f as [|[k' v] f IH]; simpl; [reflexivity|].
  destruct (pystr_eqb k' (py k)); [reflexivity | exact IH].
Qed.

(** C6.  Idempotent-reject registration: a form with the seven fields
    whose [register_number] is already in the registration collection
    is answered [DuplicateRegistration] (the flash and the redirect),
    and both collections are what they were: the stored record is
    unchanged and nothing is inserted. *)
Theorem duplicate_registration_rejected e rq w info :
  attendee_info_of (form rq) = Some info ->
  has_record (registration_collection w) (get info "register_number") = true ->
  register e rq w = DuplicateRegistration w
  /\ registration_collection (snd (register e rq w)) = registration_collection w
  /\ validation_collection (snd (register e rq w)) = validation_collection w.
Proof.
  unfold attendee_info_of. intros Hinfo Hrec.
  destruct (form_value (form rq) "name") as [name|] eqn:E1; [|discriminate].
  destruct (form_value (form rq) "degree") as [degree|] eqn:E2; [|discriminate].
  destruct (form_value (form rq) "class_section") as [class_section|] eqn:E3;
    [|discriminate].
  destruct (form_value (form rq) "year") as [year|] eqn:E4; [|discriminate].
  destruct (form_value (form rq) "register_number") as [register_number|] eqn:E5;
    [|discriminate].
  destruct (form_value (form rq) "email") as [email|] eqn:E6; [|discriminate].
  destruct (form_value (form rq) "phone") as [phone|] eqn:E7; [|discriminate].
  injection Hinfo as <-.
  change (get _ "register_number") with (VStr register_number) in Hrec.
  assert (H : register e rq w = DuplicateRegistration w).
  { unfold register, bind.
    rewrite form_get_value, E1. rewrite form_get_value, E2.
    rewrite form_get_value, E3. rewrite form_get_value, E4.
    rewrite form_get_value, E5. rewrite form_get_value, E6.
    rewrite form_get_value, E7.
    unfold M_find_one. cbn [coll]. unfold has_record in Hrec. now rewrite Hrec. }
  rewrite H. now repeat split.
Qed.

(** ** The replies of [validate] *)

Lemma returns_ret A (P : A -> Prop) a : P a -> returns P (ret a).
Proof. intros H w r w' [= <- _]. exact H. Qed.

Lemma returns_raise A (P : A -> Prop) x : returns P (raise x).
Proof. intros w r w' [=]. Qed.

Lemma returns_bind A B (P : B -> Prop) (m : M A) (k : A -> M B) :
  (forall a, returns P (k a)) -> returns P (bind m k).
Proof.
  intros Hk w r w'. unfold bind.
  destruct (m w) as [[a|x] w1]; [apply Hk | discriminate].
Qed.

Lemma returns_if A (P : A -> Prop) (b : bool) (m1 m2 : M A) :
  returns P m1 -> returns P m2 -> returns P (if b then m1 else m2).
Proof. now destruct b. Qed.

Lemma returns_try_except A (P : A -> Prop) (m : M A) h :
  returns P m -> (forall x k, h x = Some k -> returns P k) ->
  returns P (try_except m h).
Proof.
  intros Hm Hh w r w'. unfold try_except. specialize (Hm w).
  destruct (m w) as [[a|x] w1].
  - intros [= <- <-]. exact (Hm a w1 eq_refl).
  - destruct (h x) as [k|] eqn:E; [|discriminate].
    apply (Hh x k E).
Qed.

Lemma reply_is_validation_reply valid message :
  validation_reply (reply valid message).
Proof. left. now exists valid, (py message). Qed.

Ltac returns_step :=
  first
    [ apply returns_ret; first [apply reply_is_validation_reply | right; eauto]
    | apply returns_raise
    | apply returns_bind; intro
    | apply returns_if
    | apply returns_try_except
    | match goal with |- returns _ (let (_, _) := ?r in _) => destruct r end ].

Lemma validate_try_replies e qr_data :
  returns validation_reply (validate_try e qr_data).
Proof. unfold validate_try. repeat returns_step. Qed.

Lemma validate_replies e rq :
  method rq = POST -> returns validation_reply (validate e rq).
Proof.
  intros Hm. unfold validate. rewrite Hm. cbn [verb_eqb].
  repeat returns_step.
  intros x k. destruct x; cbn; intros E; inversion E; repeat returns_step.
Qed.

(** C8, as amended.  The validation surface is the rule [/$i$tvali]:
    [GET] on it renders the scan page, [POST] on it runs [validate],
    and whatever [validate] returns to a [POST] is a JSON object with
    [valid] (bool), [message] (string) and, between them, an optional
    [attendee]. *)
Theorem validation_surface e rq w :
  path rq = validate_url ->
  (method rq = GET -> handle e rq w = (Template "validation.html", w))
  /\ (method rq = POST ->
      dispatch_request e rq w = validate e rq w
      /\ forall r w', validate e rq w = (Ret r, w') -> validation_reply r).
Proof.
  intros Hp. split; intros Hm.
  - unfold handle, dispatch_request. rewrite Hp, Hm.
    change (match_rule url_map validate_url) with (Some ([GET; POST], view_validate)).
    cbn [allowed existsb verb_eqb negb orb app call].
    unfold validate. rewrite Hm. reflexivity.
  - split.
    + unfold dispatch_request. rewrite Hp, Hm.
      change (match_rule url_map validate_url)
        with (Some ([GET; POST], view_validate)).
      reflexivity.
    + intros r w'. apply validate_replies. exact Hm.
Qed.

(** C8, as stated, fails: no rule matches the path [/validate], for
    [GET] and for a scan submission alike. *)
Lemma validate_path_not_found :
  handle env_ok {| method := GET; path := py "/validate"; form := [];
                   json := NoJson |} world0
  = (ErrorPage 404, world0)
  /\ handle env_ok (scan (py "/validate") asha_payload) asha_world
     = (ErrorPage 404, asha_world).
Proof. split; reflexivity. Qed.

(** ** The codec *)

Lemma hexval_hexdigit x : x < 16 -> hexval (hexdigit x) = Some x.
Proof.
  intros H. unfold hexval, hexdigit, is_digit.
  destruct (N.ltb_spec x 10).
  - replace (N.leb 48 (48 + x)) with true by (symmetry; apply N.leb_le; lia).
    replace (N.leb (48 + x) 57) with true by (symmetry; apply N.leb_le; lia).
    cbn [andb]. f_equal. lia.
  - replace (N.leb (87 + x) 57) with false by (symmetry; apply N.leb_gt; lia).
    rewrite andb_false_r.
    replace (N.leb 97 (87 + x)) with true by (symmetry; apply N.leb_le; lia).
    replace (N.leb (87 + x) 102) with true by (symmetry; apply N.leb_le; lia).
    cbn [andb]. f_equal. lia.
Qed.

Lemma hex_digits_4 n :
  hex_digits 4 n =
  [hexdigit (n / 16 / 16 / 16 mod 16); hexdigit (n / 16 / 16 mod 16);
   hexdigit (n / 16 mod 16); hexdigit (n mod 16)].
Proof. reflexivity. Qed.

Lemma hexval4_digits n :
  n < 65536 ->
  hexval4 (hexdigit (n / 16 / 16 / 16 mod 16)) (hexdigit (n / 16 / 16 mod 16))
          (hexdigit (n / 16 mod 16)) (hexdigit (n mod 16)) = Some n.
Proof.
  intros H. unfold hexval4.
  rewrite !hexval_hexdigit by (apply N.mod_lt; discriminate).
  f_equal.
  pose proof (N.div_mod' n 16). pose proof (N.div_mod' (n / 16) 16).
  pose proof (N.div_mod' (n / 16 / 16) 16).
  pose proof (N.div_mod' (n / 16 / 16 / 16) 16).
  pose proof (N.mod_lt n 16). pose proof (N.mod_lt (n / 16) 16).
  pose proof (N.mod_lt (n / 16 / 16) 16).
  pose proof (N.mod_lt (n / 16 / 16 / 16) 16).
  assert (n / 16 / 16 / 16 / 16 = 0).
  { rewrite !N.Div0.div_div. apply N.div_small. exact H. }
  lia.
Qed.

Lemma lor_shiftl_add a b k : b < 2 ^ k -> N.lor (N.shiftl a k) b = a * 2 ^ k + b.
Proof.
  intros H.
  assert (Hland : N.land (N.shiftl a k) b = 0).
  { apply N.bits_inj. intros i. rewrite N.land_spec, N.bits_0.
    destruct (N.lt_ge_cases i k) as [Hi|Hi].
    - now rewrite N.shiftl_spec_low.
    - replace b with (b mod 2 ^ k) by (now apply N.mod_small).
      rewrite N.mod_pow2_bits_high by exact Hi. apply andb_false_r. }
  rewrite <- N.lxor_lor by exact Hland.
  rewrite <- N.add_nocarry_lxor by exact Hland.
  now rewrite N.shiftl_mul_pow2.
Qed.

Lemma scanstring_u h1 h2 h3 h4 r2 uni :
  hexval4 h1 h2 h3 h4 = Some uni ->
  is_high_surrogate uni = false ->
  scanstring (92 :: 117 :: h1 :: h2 :: h3 :: h4 :: r2)
  = cons_char uni (scanstring r2).
Proof.
  intros Hh Hs.
  change (scanstring (92 :: 117 :: h1 :: h2 :: h3 :: h4 :: r2))
    with (match hexval4 h1 h2 h3 h4 with
          | None => None
          | Some uni =>
              if is_high_surrogate uni then
                match r2 with
                | b :: u :: g1 :: g2 :: g3 :: g4 :: r3 =>
                    if (N.eqb b 92 && N.eqb u 117)%bool then
                      match hexval4 g1 g2 g3 g4 with
                      | None => None
                      | Some uni2 =>
                          if is_low_surrogate uni2
                          then cons_char (join_surrogates uni uni2) (scanstring r3)
                          else cons_char uni (scanstring r2)
                      end
                    else cons_char uni (scanstring r2)
                | _ => cons_char uni (scanstring r2)
                end
              else cons_char uni (scanstring r2)
          end).
  now rewrite Hh, Hs.
Qed.

Lemma scanstring_pair h1 h2 h3 h4 g1 g2 g3 g4 r3 hi lo :
  hexval4 h1 h2 h3 h4 = Some hi ->
  hexval4 g1 g2 g3 g4 = Some lo ->
  is_high_surrogate hi = true ->
  is_low_surrogate lo = true ->
  scanstring (92 :: 117 :: h1 :: h2 :: h3 :: h4
              :: 92 :: 117 :: g1 :: g2 :: g3 :: g4 :: r3)
  = cons_char (join_surrogates hi lo) (scanstring r3).
Proof.
  intros Hh Hg Hhi Hlo.
  change (scanstring (92 :: 117 :: h1 :: h2 :: h3 :: h4
                      :: 92 :: 117 :: g1 :: g2 :: g3 :: g4 :: r3))
    with (match hexval4 h1 h2 h3 h4 with
          | None => None
          | Some uni =>
              if is_high_surrogate uni then
                match hexval4 g1 g2 g3 g4 with
                | None => None
                | Some uni2 =>
                    if is_low_surrogate uni2
                    then cons_char (join_surrogates uni uni2) (scanstring r3)
                    else cons_char uni
                           (scanstring (92 :: 117 :: g1 :: g2 :: g3 :: g4 :: r3))
                end
              else cons_char uni
                     (scanstring (92 :: 117 :: g1 :: g2 :: g3 :: g4 :: r3))
          end).
  now rewrite Hh, Hhi, Hg, Hlo.
Qed.

Lemma scanstring_plain c r :
  N.eqb c 34 = false -> N.eqb c 92 = false -> N.leb c 31 = false ->
  scanstring (c :: r) = cons_char c (scanstring r).
Proof. intros H1 H2 H3. simpl. now rewrite H1, H2, H3. Qed.

Lemma surrogate_split c :
  65536 <= c -> c <= 1114111 ->
  let n := c - 65536 in
  let s1 := N.lor 55296 (N.land (N.shiftr n 10) 1023) in
  let s2 := N.lor 56320 (N.land n 1023) in
  s1 < 65536 /\ s2 < 65536
  /\ is_high_surrogate s1 = true /\ is_low_surrogate s2 = true
  /\ join_surrogates s1 s2 = c.
Proof.
  intros Hlo Hhi n s1 s2.
  assert (Hn : n < 1048576) by (unfold n; lia).
  assert (Ha : N.land (N.shiftr n 10) 1023 = n / 1024).
  { change 1023 with (N.ones 10). rewrite N.land_ones, N.shiftr_div_pow2.
    change (2 ^ 10) with 1024. apply N.mod_small.
    apply N.Div0.div_lt_upper_bound. lia. }
  assert (Hb : N.land n 1023 = n mod 1024).
  { change 1023 with (N.ones 10). now rewrite N.land_ones. }
  assert (Hq : n / 1024 < 1024) by (apply N.Div0.div_lt_upper_bound; lia).
  assert (Hr : n mod 1024 < 1024) by (apply N.mod_lt; discriminate).
  assert (H1 : s1 = 55296 + n / 1024).
  { unfold s1. rewrite Ha. change 55296 with (N.shiftl 54 10).
    rewrite lor_shiftl_add by exact Hq. reflexivity. }
  assert (H2 : s2 = 56320 + n mod 1024).
  { unfold s2. rewrite Hb. change 56320 with (N.shiftl 55 10).
    rewrite lor_shiftl_add by exact Hr. reflexivity. }
  rewrite H1, H2. unfold is_high_surrogate, is_low_surrogate, join_surrogates.
  repeat split; try lia.
  - apply andb_true_iff. split; apply N.leb_le; lia.
  - apply andb_true_iff. split; apply N.leb_le; lia.
  - replace (55296 + n / 1024 - 55296) with (n / 1024) by lia.
    replace (56320 + n mod 1024 - 56320) with (n mod 1024) by lia.
    rewrite lor_shiftl_add by exact Hr. change (2 ^ 10) with 1024.
    pose proof (N.div_mod' n 1024). unfold n in *. lia.
Qed.

Lemma scalar_not_high c : scalar c = true -> is_high_surrogate c = false.
Proof.
  unfold scalar, is_high_surrogate. intros H.
  apply orb_true_iff in H as [H|H].
  - apply N.ltb_lt in H. apply andb_false_iff. left. apply N.leb_gt. lia.
  - apply andb_true_iff in H as [H _]. apply N.ltb_lt in H.
    apply andb_false_iff. right. apply N.leb_gt. lia.
Qed.

Lemma scan_escape_char c tail :
  scalar c = true ->
  scanstring (escape_char c ++ tail) = cons_char c (scanstring tail).
Proof.
  intros Hs. unfold escape_char.
  destruct (N.eqb_spec c 34) as [->|H34]; [reflexivity|].
  destruct (N.eqb_spec c 92) as [->|H92]; [reflexivity|].
  destruct (N.eqb_spec c 10) as [->|H10]; [reflexivity|].
  destruct (N.eqb_spec c 13) as [->|H13]; [reflexivity|].
  destruct (N.eqb_spec c 9) as [->|H9]; [reflexivity|].
  destruct (N.eqb_spec c 12) as [->|H12]; [reflexivity|].
  destruct (N.eqb_spec c 8) as [->|H8]; [reflexivity|].
  destruct (N.leb 32 c && N.leb c 126)%bool eqn:Hp.
  - apply andb_true_iff in Hp as [Hlo Hhi]. apply N.leb_le in Hlo.
    cbn [app]. apply scanstring_plain.
    + now apply N.eqb_neq.
    + now apply N.eqb_neq.
    + apply N.leb_gt. lia.
  - destruct (N.ltb_spec c 65536) as [Hlt|Hge].
    + unfold u_escape. rewrite hex_digits_4. cbn [app].
      apply scanstring_u; [now apply hexval4_digits | now apply scalar_not_high].
    + assert (Hmax : c <= 1114111).
      { unfold scalar in Hs. apply orb_true_iff in Hs as [H|H].
        - apply N.ltb_lt in H. lia.
        - apply andb_true_iff in H as [_ H]. now apply N.leb_le in H. }
      destruct (surrogate_split Hge Hmax) as (H1 & H2 & Hhi & Hlo & Hj).
      cbv zeta. unfold u_escape. rewrite !hex_digits_4. cbn [app].
      erewrite scanstring_pair;
        [ rewrite Hj; reflexivity
        | now apply hexval4_digits | now apply hexval4_digits
        | exact Hhi | exact Hlo ].
Qed.

Lemma scanstring_encoded s rest :
  forallb scalar s = true ->
  scanstring (flat_map escape_char s ++ 34 :: rest) = Some (s, rest).
Proof.
  induction s as [|c s IH]; intros H; [reflexivity|].
  cbn [forallb] in H. apply andb_true_iff in H as [Hc Hs].
  cbn [flat_map]. rewrite <- app_assoc, scan_escape_char by exact Hc.
  now rewrite IH.
Qed.

Lemma dumps_dict k x d :
  dumps (VDict ((k, x) :: d))
  = 123 :: encode_basestring_ascii k ++ py ": " ++ dumps x
        ++ dumps_members d ++ [125].
Proof. reflexivity. Qed.

Lemma hexdigit_scalar x : x < 16 -> scalar (hexdigit x) = true.
Proof.
  intros H. unfold scalar, hexdigit. apply orb_true_iff. left.
  apply N.ltb_lt. destruct (N.ltb x 10); lia.
Qed.

Lemma hex_digits_text n x : text (hex_digits n x) = true.
Proof.
  unfold text. revert x. induction n as [|n IH]; intros x; [reflexivity|].
  cbn [hex_digits]. rewrite forallb_app, IH. cbn [forallb].
  now rewrite hexdigit_scalar by (apply N.mod_lt; discriminate).
Qed.

Lemma dumps_text_value v :
  text_value v = true ->
  exists s, text s = true
            /\ dumps v = 34 :: flat_map escape_char s ++ [34]
            /\ ObjectIdEncoder_default v = VStr s.
Proof.
  destruct v; try discriminate; intros H.
  - exists s. now repeat split.
  - exists (oid_str id). repeat split. apply hex_digits_text.
Qed.

Lemma scan_once_string f body t rest :
  scanstring body = Some (t, rest) ->
  scan_once (S f) (34 :: body) = Parsed (VStr t) rest.
Proof. intros H. simpl. now rewrite H. Qed.

Lemma parse_object_member f acc kbody k s val r3 c r4 :
  scanstring kbody = Some (k, 58 :: 32 :: s) ->
  skip_ws s = s ->
  scan_once f s = Parsed val r3 ->
  skip_ws r3 = c :: r4 ->
  parse_object (S f) acc (34 :: kbody) =
  if N.eqb c 125 then Parsed (VDict (dict_set acc k val)) r4
  else if N.eqb c 44 then parse_object f (dict_set acc k val) (skip_ws r4)
  else Malformed.
Proof.
  intros Hk Hs Hv Hr. cbn [parse_object N.eqb Pos.eqb].
  rewrite Hk. cbn [skip_ws is_space N.eqb Pos.eqb orb].
  rewrite Hs, Hv, Hr. reflexivity.
Qed.

Lemma parse_members_text items : forall acc k v f tail,
  text_record ((k, v) :: items) = true ->
  (List.length items + 1 < f)%nat ->
  parse_object f acc
    (encode_basestring_ascii k ++ py ": " ++ dumps v
     ++ dumps_members items ++ 125 :: tail)
  = Parsed (VDict (fold_left
                     (fun a kv => dict_set a (fst kv)
                                    (ObjectIdEncoder_default (snd kv)))
                     ((k, v) :: items) acc))
      tail.
Proof.
  induction items as [|[k' v'] items IH]; intros acc k v f tail Ht Hf.
  - cbn [text_record forallb fst snd] in Ht. rewrite andb_true_r in Ht.
    apply andb_true_iff in Ht as [Hk Hv].
    destruct (dumps_text_value _ Hv) as (s & Hs & Hd & Hr).
    destruct f as [|[|f]]; [simpl in Hf; lia | simpl in Hf; lia |].
    unfold encode_basestring_ascii. rewrite Hd.
    cbn [dumps_members fold_left fst snd]. rewrite Hr.
    change (py ": ") with [58; 32].
    cbn [app]. repeat (rewrite <- app_assoc; cbn [app]).
    erewrite parse_object_member; cycle 1.
    + apply scanstring_encoded. exact Hk.
    + reflexivity.
    + apply scan_once_string. apply scanstring_encoded. exact Hs.
    + reflexivity.
    + reflexivity.
  - cbn [text_record forallb fst snd] in Ht.
    apply andb_true_iff in Ht as [Hkv Ht].
    apply andb_true_iff in Hkv as [Hk Hv].
    destruct (dumps_text_value _ Hv) as (s & Hs & Hd & Hr).
    destruct f as [|[|f]]; [simpl in Hf; lia | simpl in Hf; lia |].
    unfold encode_basestring_ascii at 1. rewrite Hd.
    cbn [dumps_members fold_left fst snd]. rewrite Hr.
    change (py ": ") with [58; 32]. change (py ", ") with [44; 32].
    cbn [app]. repeat (rewrite <- app_assoc; cbn [app]).
    erewrite parse_object_member; cycle 1.
    + apply scanstring_encoded. exact Hk.
    + reflexivity.
    + apply scan_once_string. apply scanstring_encoded. exact Hs.
    + reflexivity.
    + cbn [N.eqb Pos.eqb skip_ws is_space orb].
      apply (IH (dict_set acc k (VStr s)) k' v' (S f) tail).
      * exact Ht.
      * simpl in Hf |- *. lia.
Qed.

Lemma dumps_members_length items :
  (List.length items <= List.length (dumps_members items))%nat.
Proof.
  induction items as [|[k v] items IH]; [apply le_n|].
  cbn [dumps_members]. change (py ", ") with [44; 32].
  cbn [app List.length]. rewrite !length_app. lia.
Qed.

Lemma dict_set_new acc k v :
  dict_get acc k = None -> dict_set acc k v = acc ++ [(k, v)].
Proof.
  induction acc as [|[k' v'] acc IH]; [reflexivity|].
  cbn [dict_get dict_set]. destruct (pystr_eqb k' k); [discriminate|].
  intros H. now rewrite IH.
Qed.

Lemma dict_get_none d k : ~ In k (map fst d) -> dict_get d k = None.
Proof.
  induction d as [|[k' v'] d IH]; [reflexivity|].
  cbn [map fst In dict_get]. intros H.
  destruct (pystr_eqb k' k) eqn:E.
  - apply pystr_eqb_eq in E. tauto.
  - apply IH. tauto.
Qed.

Lemma fold_dict_set_distinct items : forall acc,
  NoDup (map fst acc ++ map fst items) ->
  fold_left (fun a kv => dict_set a (fst kv) (ObjectIdEncoder_default (snd kv)))
    items acc
  = acc ++ as_read items.
Proof.
  induction items as [|[k v] items IH]; intros acc H.
  - cbn. now rewrite app_nil_r.
  - cbn [fold_left fst snd as_read map].
    rewrite dict_set_new.
    + rewrite IH.
      * now rewrite <- app_assoc.
      * rewrite map_app. cbn [map fst]. rewrite <- app_assoc. exact H.
    + apply dict_get_none. cbn [map fst] in H.
      apply NoDup_remove_2 in H. intros Hin. apply H.
      apply in_or_app. now left.
Qed.

(** Reading back a serialized record of text gives the record, each
    [ObjectId] as its [str]. *)
Lemma decode_dumps_text_record d :
  d <> [] ->
  text_record d = true ->
  NoDup (map fst d) ->
  decode (dumps (VDict d)) = Parsed (VDict (as_read d)) [].
Proof.
  destruct d as [|[k v] items]; [congruence|]. intros _ Ht Hnd.
  unfold decode. rewrite dumps_dict.
  set (body := encode_basestring_ascii k ++ py ": " ++ dumps v
               ++ dumps_members items ++ [125]).
  assert (Hlen : (List.length items + 1 < 2 * S (List.length body))%nat).
  { unfold body. rewrite !length_app.
    pose proof (dumps_members_length items). cbn [List.length]. lia. }
  change (List.length (123 :: body)) with (S (List.length body)).
  rewrite Nat.add_1_r.
  assert (Hb : body = 34 :: tl body) by reflexivity.
  assert (Hskip : skip_ws body = 34 :: tl body) by reflexivity.
  cbn [skip_ws is_space N.eqb Pos.eqb orb scan_once].
  rewrite Hskip. cbn [N.eqb Pos.eqb]. rewrite <- Hb. unfold body at 2.
  rewrite (parse_members_text items [] k v [] Ht Hlen).
  cbn [skip_ws]. f_equal. f_equal.
  apply (fold_dict_set_distinct ((k, v) :: items) []). exact Hnd.
Qed.

Lemma text_record_app a b :
  text_record (a ++ b) = text_record a && text_record b.
Proof. apply forallb_app. Qed.



(** ** Two requests side by side *)

(** Case analysis on the next call of a computation; the raising case
    is closed by computation, through the [except] clauses. *)
Ltac stage m a w :=
  let x := fresh "x" in
  destruct m as [[a|x] w];
  [ cbv beta iota
  | first [ reflexivity | destruct x; reflexivity ] ].

(** A request that runs alone is the view [validate]. *)
Lemma alone_is_validate e rq w :
  alone (Arrived e rq) w
  = (Finished (fst (validate e rq w)), snd (validate e rq w)).
Proof.
  unfold alone, validate. cbn [step].
  destruct (verb_eqb (method rq) GET); [reflexivity|].
  unfold guarded, lookup_registration, validate_try, try_except, bind, ret.
  stage (request_json rq w) body w1.
  stage (py_get body "qr_data" w1) qr_data w2.
  destruct (truthy qr_data); cbn [negb]; [|reflexivity].
  stage (json_loads qr_data w2) attendee_info w3.
  stage (py_get attendee_info "register_number" w3) register_number w4.
  stage (all_in required_fields attendee_info w4) present w5.
  destruct present; cbn [negb]; [|reflexivity].
  stage (M_find_one Registration (py "register_number") register_number w5)
        existing_registration w6.
  destruct (truthy existing_registration); cbn [negb]; [|reflexivity].
  cbn [step]. unfold guarded, lookup_validation, bind, ret.
  stage (M_find_one Validation (py "register_number") register_number w6)
        existing_validation w7.
  destruct (truthy existing_validation); [reflexivity|].
  cbn [step]. unfold guarded, insert_validation, bind, ret.
  stage (py_item attendee_info "name" w7) name w8.
  stage (py_item attendee_info "degree" w8) degree w9.
  stage (py_item attendee_info "class_section" w9) class_section w10.
  stage (py_item attendee_info "year" w10) year w11.
  stage (py_item attendee_info "register_number" w11) register_number' w12.
  stage (py_item attendee_info "email" w12) email w13.
  stage (py_item attendee_info "phone" w13) phone w14.
  match goal with
  | |- context [insert_one Validation ?d w14] =>
      stage (insert_one Validation d w14) r w15
  end.
  destruct r as [inserted_id validation_data].
  cbn [step]. unfold guarded, sync_ledger, bind, ret.
  match goal with
  | |- context [requests_post e VALIDATION_SCRIPT_URL ?b w15] =>
      stage (requests_post e VALIDATION_SCRIPT_URL b w15) status_code w16
  end.
  destruct (Z.eqb status_code 200); reflexivity.
Qed.

Lemma step_arrived e url payload d w :
  decodes_to payload d ->
  complete d = true ->
  has_record (registration_collection w) (get d "register_number") = true ->
  step (Arrived e (scan url payload)) w
  = (Registered e (VDict d) (get d "register_number"), w).
Proof.
  intros Hd Hc Hr. unfold step, scan. cbn [method json verb_eqb].
  unfold bind at 1. unfold request_json. cbn [json]. unfold ret at 1.
  unfold py_get at 1.
  change (dict_get [(py "qr_data", VStr payload)] (py "qr_data"))
    with (Some (VStr payload)).
  unfold ret at 1. rewrite (decode_nonempty _ Hd). cbn [negb].
  unfold guarded, lookup_registration.
  unfold bind at 1. unfold json_loads. rewrite Hd. unfold ret at 1.
  unfold bind at 1. unfold py_get at 1. unfold ret at 1.
  unfold bind at 1. rewrite all_in_dict. fold (complete d). rewrite Hc.
  cbn [negb]. unfold bind, M_find_one. cbn [coll].
  fold (get d "register_number").
  fold (has_record (registration_collection w) (get d "register_number")).
  now rewrite Hr.
Qed.

Lemma step_registered e d w :
  step (Registered e (VDict d) (get d "register_number")) w
  = if has_record (validation_collection w) (get d "register_number")
    then (Finished (Ret AlreadyUsed), w)
    else (Unused e (VDict d), w).
Proof.
  unfold step, guarded, lookup_validation, bind, M_find_one, ret. cbn [coll].
  fold (has_record (validation_collection w) (get d "register_number")).
  now destruct (has_record (validation_collection w) _).
Qed.

Lemma step_unused e d w :
  complete d = true ->
  step (Unused e (VDict d)) w
  = if unique_register_number (validation_collection w)
       && has_record (validation_collection w) (get d "register_number")
    then (Finished (Raise DuplicateKeyError), w)
    else (Inserted e (attendee_of d w),
          stored Validation (validation_record d w) w).
Proof.
  intros Hc. unfold step, guarded, insert_validation, py_item.
  rewrite !(complete_get _ Hc) by (simpl; tauto).
  unfold bind, ret, insert_one, violates_index. cbn [coll].
  change [(py "name", get d "name"); (py "degree", get d "degree");
          (py "class_section", get d "class_section"); (py "year", get d "year");
          (py "register_number", get d "register_number");
          (py "email", get d "email"); (py "phone", get d "phone")]
    with (fields_of d).
  change (dict_get (fields_of d) (py "register_number"))
    with (Some (get d "register_number")).
  cbv beta iota.
  fold (has_record (validation_collection w) (get d "register_number")).
  now destruct (unique_register_number (validation_collection w)
                && has_record (validation_collection w) _).
Qed.

Lemma step_inserted e validation_data w :
  ledger_reply e = StatusCode 200 ->
  step (Inserted e validation_data) w
  = (Finished (Ret (ACCEPTED validation_data)),
     posted VALIDATION_SCRIPT_URL (dumps (VDict validation_data)) w).
Proof.
  intros He. unfold step, guarded, sync_ledger, bind, requests_post.
  now rewrite He.
Qed.

Lemma race_inv_sym index payload d sa sb a b w :
  race_inv index payload d sa sb a b w -> race_inv index payload d sb sa b a w.
Proof.
  intros [Ha Hb Hi Hr Hw Hra Hrb Hd Ho]. constructor; try assumption; tauto.
Qed.

Ltac close_inv :=
  constructor;
  first
    [ assumption
    | reflexivity
    | now constructor
    | solve [ intuition (try discriminate; try congruence) ]
    | idtac ].

Lemma stored_has_record d w :
  has_record (validation_collection (stored Validation (validation_record d w) w))
    (get d "register_number") = true.
Proof.
  change (validation_collection (stored Validation (validation_record d w) w))
    with (add_doc (validation_collection w) (validation_record d w)).
  rewrite has_record_add_doc, record_matches. apply orb_true_r.
Qed.

Lemma step_keeps_inv index payload d sa sb a b w :
  decodes_to payload d ->
  complete d = true ->
  race_inv index payload d sa sb a b w ->
  exists sa',
    race_inv index payload d sa' sb (fst (step a w)) b (snd (step a w)).
Proof.
  intros Hd Hc [Ha Hb Hi Hr Hw Hra Hrb Hdup Ho].
  inversion Ha as [e url He | e He | e He | e vd He | vd | | ]; subst.
  - rewrite (step_arrived e url w Hd Hc Hr). cbn [fst snd].
    exists Before. close_inv.
  - rewrite step_registered.
    destruct (has_record (validation_collection w) _) eqn:Hv; cbn [fst snd].
    + exists Used. close_inv.
    + exists Committed. close_inv.
  - rewrite (@step_unused e d w Hc).
    destruct (unique_register_number (validation_collection w)) eqn:Hu;
      destruct (has_record (validation_collection w) _) eqn:Hv;
      cbn [andb fst snd].
    + exists Dup. close_inv.
    + exists Wrote. pose proof (stored_has_record d w). close_inv.
    + exists Wrote. pose proof (stored_has_record d w). close_inv.
    + exists Wrote. pose proof (stored_has_record d w). close_inv.
  - rewrite (@step_inserted e vd w He). cbn [fst snd].
    exists Wrote. close_inv.
  - exists Wrote. cbn [step fst snd]. close_inv.
  - exists Used. cbn [step fst snd]. close_inv.
  - exists Dup. cbn [step fst snd]. close_inv.
Qed.

Lemma interleave_keeps_inv index payload d sched :
  decodes_to payload d ->
  complete d = true ->
  forall sa sb a b w,
    race_inv index payload d sa sb a b w ->
    exists sa' sb',
      race_inv index payload d sa' sb'
        (fst (fst (interleave sched a b w)))
        (snd (fst (interleave sched a b w)))
        (snd (interleave sched a b w)).
Proof.
  intros Hd Hc. induction sched as [|t sched IH]; intros sa sb a b w Hinv.
  - now exists sa, sb.
  - destruct t; cbn [interleave].
    + destruct (step_keeps_inv Hd Hc Hinv) as [sa' H].
      destruct (step a w) as [a' w']. now apply IH in H.
    + destruct (step_keeps_inv Hd Hc (race_inv_sym Hinv)) as [sb' H].
      destruct (step b w) as [b' w']. apply race_inv_sym in H.
      now apply IH in H.
Qed.

Lemma finished_stage payload d s r :
  thread_at payload d s (Finished r) ->
  (s = Wrote /\ accepted r)
  \/ (s = Used /\ r = Ret AlreadyUsed)
  \/ (s = Dup /\ r = Raise DuplicateKeyError).
Proof.
  intros H. inversion H; subst.
  - left. split; [reflexivity | now eexists].
  - right. left. now split.
  - right. right. now split.
Qed.

Lemma one_by_one_outcome e1 e2 url1 url2 payload d w :
  decodes_to payload d ->
  complete d = true ->
  has_record (registration_collection w) (get d "register_number") = true ->
  has_record (validation_collection w) (get d "register_number") = false ->
  ledger_reply e1 = StatusCode 200 ->
  interleave one_by_one (Arrived e1 (scan url1 payload))
    (Arrived e2 (scan url2 payload)) w
  = (Finished (Ret (ACCEPTED (attendee_of d w))), Finished (Ret AlreadyUsed),
     synced d w).
Proof.
  intros Hd Hc Hr Hv He1. unfold one_by_one. cbn [interleave].
  rewrite (step_arrived e1 url1 w Hd Hc Hr).
  rewrite step_registered, Hv.
  rewrite (@step_unused e1 d w Hc), Hv, andb_false_r.
  rewrite (@step_inserted e1 _ _ He1). fold (synced d w).
  rewrite (step_arrived e2 url2 (synced d w) Hd Hc Hr).
  rewrite step_registered, synced_has_record.
  reflexivity.
Qed.

Lemma race_any_schedule sched e1 e2 url1 url2 payload d w r1 r2 w' :
  decodes_to payload d ->
  complete d = true ->
  has_record (registration_collection w) (get d "register_number") = true ->
  has_record (validation_collection w) (get d "register_number") = false ->
  ledger_reply e1 = StatusCode 200 ->
  ledger_reply e2 = StatusCode 200 ->
  interleave sched (Arrived e1 (scan url1 payload))
    (Arrived e2 (scan url2 payload)) w
  = (Finished r1, Finished r2, w') ->
  if unique_register_number (validation_collection w)
  then (accepted r1 /\ (r2 = Ret AlreadyUsed \/ r2 = Raise DuplicateKeyError))
       \/ (accepted r2 /\ (r1 = Ret AlreadyUsed \/ r1 = Raise DuplicateKeyError))
  else (accepted r1 /\ accepted r2)
       \/ (accepted r1 /\ r2 = Ret AlreadyUsed)
       \/ (accepted r2 /\ r1 = Ret AlreadyUsed).
Proof.
  intros Hd Hc Hr Hv He1 He2 Hrun.
  assert (Hinv : race_inv (unique_register_number (validation_collection w))
                   payload d Before Before
                   (Arrived e1 (scan url1 payload))
                   (Arrived e2 (scan url2 payload)) w).
  { constructor; try (now constructor); try assumption; try reflexivity;
      try solve [intuition discriminate].
    rewrite Hv. intuition discriminate. }
  destruct (interleave_keeps_inv sched Hd Hc Hinv) as (sa & sb & H).
  rewrite Hrun in H. cbn [fst snd] in H.
  destruct H as [Ha Hb _ _ _ Hra Hrb Hdup Ho].
  apply finished_stage in Ha, Hb.
  destruct (unique_register_number (validation_collection w)).
  - destruct Ha as [[-> A]|[[-> A]|[-> A]]], Hb as [[-> B]|[[-> B]|[-> B]]];
      try (exfalso; solve [intuition discriminate]); subst; tauto.
  - destruct Ha as [[-> A]|[[-> A]|[-> A]]], Hb as [[-> B]|[[-> B]|[-> B]]];
      try (exfalso; solve [intuition discriminate]); subst; tauto.
Qed.



(** ** The claims at sample inputs *)

Lemma asha_facts :
  decodes_to asha_payload asha_record
  /\ complete asha_record = true
  /\ has_record (registration_collection asha_world)
       (get asha_record "register_number") = true
  /\ has_record (validation_collection asha_world)
       (get asha_record "register_number") = false
  /\ has_record (registration_collection world0)
       (get asha_record "register_number") = false.
Proof. vm_compute. repeat split. Qed.




Lemma duplicate_registration_witness :
  register env_ok asha_registration asha_world = DuplicateRegistration asha_world
  /\ registration_collection (snd (register env_ok asha_registration asha_world))
     = registration_collection asha_world
  /\ validation_collection (snd (register env_ok asha_registration asha_world))
     = validation_collection asha_world.
Proof.
  apply (@duplicate_registration_rejected env_ok asha_registration asha_world
           asha_info); vm_compute; reflexivity.
Defined.




Lemma validation_surface_witness :
  (method (scan validate_url asha_payload) = GET ->
   handle env_ok (scan validate_url asha_payload) asha_world
   = (Template "validation.html", asha_world))
  /\ (method (scan validate_url asha_payload) = POST ->
      dispatch_request env_ok (scan validate_url asha_payload) asha_world
      = validate env_ok (scan validate_url asha_payload) asha_world
      /\ forall r w',
           validate env_ok (scan validate_url asha_payload) asha_world
           = (Ret r, w') ->
           validation_reply r).
Proof.
  apply (@validation_surface env_ok (scan validate_url asha_payload) asha_world).
  reflexivity.
Defined.


(** ** The decoder never runs out of budget *)

Lemma skip_ws_le s : (List.length (skip_ws s) <= List.length s)%nat.
Proof.
  induction s as [|c s IH]; [apply le_n|].
  cbn [skip_ws]. destruct (is_space c); cbn [List.length]; lia.
Qed.

Lemma cons_char_some c x t r :
  cons_char c x = Some (t, r) -> exists t', x = Some (t', r).
Proof.
  destruct x as [[t' r']|]; [|discriminate]. intros [= _ <-]. now exists t'.
Qed.

Lemma scanstring_shorter_upto n : forall s t r,
  (List.length s <= n)%nat ->
  scanstring s = Some (t, r) -> (List.length r < List.length s)%nat.
Proof.
  induction n as [|n IH]; intros s t r Hn H.
  - destruct s; [discriminate | cbn in Hn; lia].
  - destruct s as [|c s]; [discriminate|].
    cbn [List.length] in *. cbn [scanstring] in H.
    destruct (N.eqb c 34); [injection H as _ <-; lia|].
    destruct (N.eqb c 92).
    + destruct s as [|e r1]; [discriminate|].
      destruct (N.eqb e 117).
      * destruct r1 as [|h1 [|h2 [|h3 [|h4 r2]]]]; try discriminate.
        cbn [List.length] in *.
        destruct (hexval4 h1 h2 h3 h4) as [uni|]; [|discriminate].
        assert (Hr2 : forall u, cons_char u (scanstring r2) = Some (t, r) ->
                                (List.length r < S (S (S (S (S (S (List.length r2)))))))%nat).
        { intros u Hu. apply cons_char_some in Hu as [t' Hu].
          apply IH in Hu; lia. }
        destruct (is_high_surrogate uni); [|now apply Hr2 in H].
        destruct r2 as [|b [|u [|g1 [|g2 [|g3 [|g4 r3]]]]]];
          try (now apply Hr2 in H).
        destruct (N.eqb b 92 && N.eqb u 117)%bool; [|now apply Hr2 in H].
        destruct (hexval4 g1 g2 g3 g4) as [uni2|]; [|discriminate].
        destruct (is_low_surrogate uni2); [|now apply Hr2 in H].
        apply cons_char_some in H as [t' H]. apply IH in H;
          cbn [List.length] in *; lia.
      * destruct (simple_escape e); [|discriminate].
        apply cons_char_some in H as [t' H]. apply IH in H;
          cbn [List.length] in *; lia.
    + destruct (N.leb c 31); [discriminate|].
      apply cons_char_some in H as [t' H]. apply IH in H; lia.
Qed.

Lemma scanstring_shorter s t r :
  scanstring s = Some (t, r) -> (List.length r < List.length s)%nat.
Proof. apply (@scanstring_shorter_upto (List.length s)). apply le_n. Qed.

Lemma span_digits_le s :
  (List.length (snd (span_digits s)) <= List.length s)%nat.
Proof.
  induction s as [|c s IH]; [apply le_n|].
  cbn [span_digits]. destruct (is_digit c); [|apply le_n].
  destruct (span_digits s) as [ds rest]. cbn [snd List.length] in *. lia.
Qed.

Lemma match_frac_le s :
  (List.length (snd (match_frac s)) <= List.length s)%nat.
Proof.
  unfold match_frac. destruct s as [|dot [|f r]]; try apply le_n.
  destruct (N.eqb dot 46 && is_digit f)%bool; [|apply le_n].
  pose proof (span_digits_le r). destruct (span_digits r) as [fs rest].
  cbn [snd List.length] in *. lia.
Qed.

Lemma match_exp_le s :
  (List.length (snd (match_exp s)) <= List.length s)%nat.
Proof.
  unfold match_exp. destruct s as [|e r]; [apply le_n|].
  destruct (N.eqb e 101 || N.eqb e 69)%bool; [|apply le_n].
  destruct r as [|sg [|d r']]; try apply le_n.
  - destruct (is_digit sg); cbn [snd List.length]; lia.
  - destruct ((N.eqb sg 43 || N.eqb sg 45) && is_digit d)%bool.
    + pose proof (span_digits_le r'). destruct (span_digits r') as [ds rest].
      cbn [snd List.length] in *. lia.
    + destruct (is_digit sg); [|apply le_n].
      pose proof (span_digits_le (d :: r')).
      destruct (span_digits (d :: r')) as [ds rest].
      cbn [snd List.length] in *. lia.
Qed.

Lemma match_number_shorter s v r :
  match_number s = Some (v, r) -> (List.length r < List.length s)%nat.
Proof.
  unfold match_number.
  set (p := match s with
            | c :: r0 => if N.eqb c 45 then ([45], r0) else ([], s)
            | [] => ([], s)
            end).
  assert (Hp : (List.length (snd p) <= List.length s)%nat).
  { subst p. destruct s as [|c r0]; [apply le_n|].
    destruct (N.eqb c 45); cbn [snd List.length]; lia. }
  destruct p as [sign s1]. cbn [snd] in Hp.
  destruct s1 as [|d r0]; [discriminate|].
  destruct (is_digit d); [|discriminate].
  set (q := if N.eqb d 48 then ([d], r0)
            else let (ds, rest) := span_digits r0 in (d :: ds, rest)).
  assert (Hq : (List.length (snd q) <= List.length r0)%nat).
  { subst q. destruct (N.eqb d 48); [apply le_n|].
    pose proof (span_digits_le r0). now destruct (span_digits r0). }
  destruct q as [int r1]. cbn [snd] in Hq.
  pose proof (match_frac_le r1) as Hf. destruct (match_frac r1) as [frac r2].
  pose proof (match_exp_le r2) as He. destruct (match_exp r2) as [exp r3].
  cbn [snd List.length] in *.
  destruct frac, exp; intros [= _ <-]; lia.
Qed.

Lemma strip_prefix_length p : forall s r,
  strip_prefix p s = Some r ->
  List.length s = (List.length p + List.length r)%nat.
Proof.
  induction p as [|a p IH]; intros s r H.
  - now injection H as ->.
  - destruct s as [|b s]; [discriminate|]. cbn [strip_prefix] in H.
    destruct (N.eqb a b); [|discriminate].
    apply IH in H. cbn [List.length]. lia.
Qed.

Lemma scan_atom_shorter s v r :
  scan_atom s = Parsed v r -> (List.length r < List.length s)%nat.
Proof.
  unfold scan_atom.
  repeat match goal with
         | |- context [strip_prefix ?p s] =>
             let E := fresh "E" in
             destruct (strip_prefix p s) eqn:E;
             [ apply strip_prefix_length in E; intros [= _ <-];
               rewrite E; cbn; lia | clear E ]
         end.
  unfold of_option. destruct (match_number s) as [[v' r']|] eqn:E;
    [|discriminate].
  intros [= _ <-]. now apply match_number_shorter in E.
Qed.

Lemma scan_atom_fuel s : scan_atom s <> OutOfFuel.
Proof.
  unfold scan_atom.
  repeat match goal with
         | |- context [strip_prefix ?p s] =>
             destruct (strip_prefix p s); [discriminate|]
         end.
  unfold of_option. now destruct (match_number s) as [[v' r']|].
Qed.

Lemma skip_ws_cons r c r' :
  skip_ws r = c :: r' -> (S (List.length r') <= List.length r)%nat.
Proof.
  intros H. pose proof (skip_ws_le r) as Hle. rewrite H in Hle. exact Hle.
Qed.

(** What a scanner leaves is shorter than what it was given. *)
Lemma scanners_shorter f :
  (forall s v r, scan_once f s = Parsed v r ->
                 (List.length r < List.length s)%nat)
  /\ (forall acc s v r, parse_array f acc s = Parsed v r ->
                        (List.length r < List.length s)%nat)
  /\ (forall acc s v r, parse_object f acc s = Parsed v r ->
                        (List.length r < List.length s)%nat).
Proof.
  induction f as [|f (IHs & IHa & IHo)];
    [repeat split; intros; discriminate|].
  repeat split.
  - intros s v r H. cbn [scan_once] in H.
    destruct s as [|c s]; [discriminate|]. cbn [List.length].
    destruct (N.eqb c 34).
    { destruct (scanstring s) as [[t rest]|] eqn:E; [|discriminate].
      injection H as _ <-. apply scanstring_shorter in E. lia. }
    destruct (N.eqb c 123).
    { destruct (skip_ws s) as [|c' r'] eqn:E; [discriminate|].
      apply skip_ws_cons in E.
      destruct (N.eqb c' 125); [injection H as _ <-; lia|].
      apply IHo in H. cbn [List.length] in H. lia. }
    destruct (N.eqb c 91).
    { destruct (skip_ws s) as [|c' r'] eqn:E; [discriminate|].
      apply skip_ws_cons in E.
      destruct (N.eqb c' 93); [injection H as _ <-; lia|].
      apply IHa in H. cbn [List.length] in H. lia. }
    apply scan_atom_shorter in H. cbn [List.length] in H. exact H.
  - intros acc s v r H. cbn [parse_array] in H.
    destruct (scan_once f s) as [v' r1| |] eqn:E; try discriminate.
    apply IHs in E.
    destruct (skip_ws r1) as [|c r'] eqn:E1; [discriminate|].
    apply skip_ws_cons in E1.
    destruct (N.eqb c 93); [injection H as _ <-; lia|].
    destruct (N.eqb c 44); [|discriminate].
    apply IHa in H. pose proof (skip_ws_le r'). lia.
  - intros acc s v r H. cbn [parse_object] in H.
    destruct s as [|q s]; [discriminate|]. cbn [List.length].
    destruct (N.eqb q 34); [|discriminate].
    destruct (scanstring s) as [[k r1]|] eqn:E; [|discriminate].
    apply scanstring_shorter in E.
    destruct (skip_ws r1) as [|colon r2] eqn:E1; [discriminate|].
    apply skip_ws_cons in E1.
    destruct (N.eqb colon 58); [|discriminate].
    destruct (scan_once f (skip_ws r2)) as [v' r3| |] eqn:E2; try discriminate.
    apply IHs in E2. pose proof (skip_ws_le r2).
    destruct (skip_ws r3) as [|c r4] eqn:E3; [discriminate|].
    apply skip_ws_cons in E3.
    destruct (N.eqb c 125); [injection H as _ <-; lia|].
    destruct (N.eqb c 44); [|discriminate].
    apply IHo in H. pose proof (skip_ws_le r4). lia.
Qed.

(** Twice the length of the text is budget enough. *)
Lemma scanners_fuel f :
  (forall s, (2 * List.length s + 1 <= f)%nat -> scan_once f s <> OutOfFuel)
  /\ (forall acc s, (2 * List.length s + 2 <= f)%nat ->
                    parse_array f acc s <> OutOfFuel)
  /\ (forall acc s, (2 * List.length s + 1 <= f)%nat ->
                    parse_object f acc s <> OutOfFuel).
Proof.
  induction f as [|f (IHs & IHa & IHo)]; [repeat split; intros; lia|].
  destruct (scanners_shorter f) as (Ss & Sa & So).
  repeat split.
  - intros s Hf. cbn [scan_once].
    destruct s as [|c s]; [discriminate|]. cbn [List.length] in Hf.
    destruct (N.eqb c 34); [now destruct (scanstring s) as [[t rest]|]|].
    destruct (N.eqb c 123).
    { destruct (skip_ws s) as [|c' r'] eqn:E; [discriminate|].
      apply skip_ws_cons in E.
      destruct (N.eqb c' 125); [discriminate|].
      apply IHo. cbn [List.length]. lia. }
    destruct (N.eqb c 91).
    { destruct (skip_ws s) as [|c' r'] eqn:E; [discriminate|].
      apply skip_ws_cons in E.
      destruct (N.eqb c' 93); [discriminate|].
      apply IHa. cbn [List.length]. lia. }
    apply scan_atom_fuel.
  - intros acc s Hf. cbn [parse_array].
    destruct (scan_once f s) as [v' r1| |] eqn:E; try discriminate.
    + apply Ss in E.
      destruct (skip_ws r1) as [|c r'] eqn:E1; [discriminate|].
      apply skip_ws_cons in E1.
      destruct (N.eqb c 93); [discriminate|].
      destruct (N.eqb c 44); [|discriminate].
      apply IHa. pose proof (skip_ws_le r'). lia.
    + exfalso. revert E. apply IHs. lia.
  - intros acc s Hf. cbn [parse_object].
    destruct s as [|q s]; [discriminate|]. cbn [List.length] in Hf.
    destruct (N.eqb q 34); [|discriminate].
    destruct (scanstring s) as [[k r1]|] eqn:E; [|discriminate].
    apply scanstring_shorter in E.
    destruct (skip_ws r1) as [|colon r2] eqn:E1; [discriminate|].
    apply skip_ws_cons in E1.
    destruct (N.eqb colon 58); [|discriminate].
    pose proof (skip_ws_le r2).
    destruct (scan_once f (skip_ws r2)) as [v' r3| |] eqn:E2; try discriminate.
    + apply Ss in E2.
      destruct (skip_ws r3) as [|c r4] eqn:E3; [discriminate|].
      apply skip_ws_cons in E3.
      destruct (N.eqb c 125); [discriminate|].
      destruct (N.eqb c 44); [|discriminate].
      apply IHo. pose proof (skip_ws_le r4). lia.
    + exfalso. revert E2. apply IHs. lia.
Qed.

(** [json.loads] on a [str] returns a value or raises [JSONDecodeError]:
    the budget of [decode] is never used up. *)
Theorem decode_total s :
  decode s = Malformed \/ exists v, decode s = Parsed v [].
Proof.
  unfold decode.
  destruct (scan_once (2 * List.length s + 1) (skip_ws s)) as [v rest| |] eqn:E.
  - destruct (skip_ws rest); [right; now exists v | now left].
  - now left.
  - exfalso. revert E. apply (scanners_fuel (2 * List.length s + 1)).
    pose proof (skip_ws_le s). lia.
Qed.

(** ** The scenario of the specification *)

(** Asha registers, her payload is scanned and accepted, and a second
    scan of it is turned away. *)
Example asha_scenario :
  let w1 := snd (handle env_ok asha_registration world0) in
  let w2 := snd (handle env_ok (scan validate_url asha_payload) w1) in
  fst (handle env_ok asha_registration world0) = Template "thanks.html"
  /\ fst (handle env_ok (scan validate_url asha_payload) w1)
     = ACCEPTED (attendee_of asha_record w1)
  /\ fst (handle env_ok (scan validate_url asha_payload) w2) = AlreadyUsed
  /\ List.length (docs (validation_collection w2)) = 1%nat.
Proof. vm_compute. repeat split. Qed.

(** ** Every request to [validate] *)

Lemma validate_post_text e rq o payload w :
  verb_eqb (method rq) GET = false ->
  json rq = JsonBody (VDict o) ->
  get o "qr_data" = VStr payload ->
  validate e rq w = validate e (scan [] payload) w.
Proof.
  intros Hm Hj Hq. unfold validate, scan. cbn [method json verb_eqb].
  rewrite Hm. unfold bind, request_json. cbn [json]. rewrite Hj.
  unfold ret, py_get.
  change (match dict_get o (py "qr_data") with Some v => v | None => VNone end)
    with (get o "qr_data").
  rewrite Hq. reflexivity.
Qed.

Lemma validate_cases e rq w :
  validate e rq w =
  if verb_eqb (method rq) GET then (Ret (Template "validation.html"), w)
  else
    match json rq with
    | NoJson => (Raise (HTTPException 415), w)
    | BadJson => (Raise (HTTPException 400), w)
    | JsonBody (VDict o) =>
        if negb (truthy (get o "qr_data")) then (Ret NoQRData, w)
        else
          match get o "qr_data" with
          | VStr payload =>
              match decode payload with
              | Malformed => (Ret MalformedPayload, w)
              | OutOfFuel => (Raise RecursionError, w)
              | Parsed (VDict d) _ => transition e d w
              | Parsed _ _ => (Raise AttributeError, w)
              end
          | _ => (Raise TypeError, w)
          end
    | JsonBody _ => (Raise AttributeError, w)
    end.
Proof.
  destruct (verb_eqb (method rq) GET) eqn:Hm;
    [unfold validate; now rewrite Hm|].
  destruct (json rq) as [| |body] eqn:Hj;
    try (unfold validate, bind, request_json; now rewrite Hm, Hj).
  destruct body as [| | | | | |o|];
    try (unfold validate, bind, request_json; now rewrite Hm, Hj).
  destruct (get o "qr_data") as [| | | |payload| | |] eqn:Hq.
  5: { rewrite (validate_post_text e rq w Hm Hj Hq), validate_scan_cases.
       now destruct payload. }
  all: unfold validate, bind, request_json; rewrite Hm, Hj;
    unfold ret, py_get;
    change (match dict_get o (py "qr_data") with Some v => v | None => VNone end)
      with (get o "qr_data");
    rewrite Hq; unfold ret; cbv beta iota; cbn [truthy negb]; try reflexivity.
  - destruct b; reflexivity.
  - destruct (Z.eqb z 0); reflexivity.
  - destruct (float_lit_zero lit); reflexivity.
  - destruct l; reflexivity.
  - destruct d; reflexivity.
Qed.

(** ** The invariants of the data model *)

Lemma value_eqb_eq : forall a b : value, value_eqb a b = true -> a = b.
Proof.
  fix IHv 1.
  intros [|x|x|x|x|x|x|x] [|y|y|y|y|y|y|y] H; try discriminate;
    cbn [value_eqb] in H.
  - reflexivity.
  - f_equal. now apply Bool.eqb_prop.
  - f_equal. now apply Z.eqb_eq.
  - f_equal. now apply pystr_eqb_eq.
  - f_equal. now apply pystr_eqb_eq.
  - f_equal. revert y H.
    induction x as [|u x IH]; intros [|v y] H; try discriminate;
      [reflexivity|].
    apply andb_true_iff in H as [H1 H2].
    f_equal; [now apply IHv | now apply IH].
  - f_equal. revert y H.
    induction x as [|[k u] x IH]; intros [|[l v] y] H; try discriminate;
      [reflexivity|].
    apply andb_true_iff in H as [H12 H3].
    apply andb_true_iff in H12 as [H1 H2].
    apply pystr_eqb_eq in H1. apply IHv in H2. apply IH in H3. now subst.
  - f_equal. now apply N.eqb_eq.
Qed.

Lemma has_record_filter c r :
  has_record c r = false ->
  filter (field_is (py "register_number") r) (docs c) = [].
Proof.
  unfold has_record, find_one. rewrite truthy_find_first.
  induction (docs c) as [|d ds IH]; [reflexivity|].
  cbn [existsb filter]. intros H. apply orb_false_iff in H as [H1 H2].
  rewrite H1. now apply IH.
Qed.

Lemma single_record_add c d r :
  single_record c ->
  dict_get d (py "register_number") = Some r ->
  has_record c r = false ->
  single_record (add_doc c d).
Proof.
  intros Hs Hd Hr q. unfold add_doc. cbn [docs].
  rewrite filter_app, length_app. cbn [filter].
  destruct (field_is (py "register_number") q d) eqn:E; cbn [List.length].
  - unfold field_is in E. rewrite Hd in E. apply value_eqb_eq in E. subst q.
    now rewrite (has_record_filter _ _ Hr).
  - specialize (Hs q). lia.
Qed.

Lemma validate_world e rq w :
  snd (validate e rq w) = w
  \/ exists d,
       complete d = true
       /\ has_record (registration_collection w) (get d "register_number") = true
       /\ has_record (validation_collection w) (get d "register_number") = false
       /\ snd (validate e rq w) = synced d w.
Proof.
  rewrite validate_cases.
  destruct (verb_eqb (method rq) GET); [now left|].
  destruct (json rq) as [| |body]; try (now left).
  destruct body as [| | | | | |o|]; try (now left).
  destruct (negb (truthy (get o "qr_data"))); [now left|].
  destruct (get o "qr_data") as [| | | |payload| | |]; try (now left).
  destruct (decode payload) as [v rest| |]; try (now left).
  destruct v; try (now left).
  destruct (transition_frame e d w) as [H|H]; [now left|].
  right. now exists d.
Qed.

Lemma register_world e rq w :
  validation_collection (snd (register e rq w)) = validation_collection w
  /\ (registration_collection (snd (register e rq w)) = registration_collection w
      \/ exists info,
           attendee_info_of (form rq) = Some info
           /\ has_record (registration_collection w) (get info "register_number")
              = false
           /\ registration_collection (snd (register e rq w))
              = add_doc (registration_collection w)
                  (dict_set info (py "_id") (VOid (next_id w)))).
Proof.
  unfold register, attendee_info_of, bind.
  rewrite form_get_value.
  destruct (form_value (form rq) "name") as [name|]; [|now split; [|left]].
  rewrite form_get_value.
  destruct (form_value (form rq) "degree") as [degree|]; [|now split; [|left]].
  rewrite form_get_value.
  destruct (form_value (form rq) "class_section") as [class_section|];
    [|now split; [|left]].
  rewrite form_get_value.
  destruct (form_value (form rq) "year") as [year|]; [|now split; [|left]].
  rewrite form_get_value.
  destruct (form_value (form rq) "register_number") as [register_number|];
    [|now split; [|left]].
  rewrite form_get_value.
  destruct (form_value (form rq) "email") as [email|]; [|now split; [|left]].
  rewrite form_get_value.
  destruct (form_value (form rq) "phone") as [phone|]; [|now split; [|left]].
  unfold M_find_one. cbn [coll].
  fold (has_record (registration_collection w) (VStr register_number)).
  destruct (has_record (registration_collection w) (VStr register_number)) eqn:Hr;
    [now split; [|left]|].
  unfold insert_one, violates_index. cbn [coll].
  change (dict_get _ (py "register_number")) with (Some (VStr register_number)).
  cbv beta iota.
  fold (has_record (registration_collection w) (VStr register_number)).
  rewrite Hr, andb_false_r.
  unfold requests_post, send_email_with_qr, flash, ret.
  split.
  - destruct (ledger_reply e) as [code|]; [|reflexivity].
    destruct (Z.eqb code 200); [|reflexivity].
    cbn [negb]. now destruct (smtp_ok e).
  - right. eexists. split; [reflexivity|]. split; [exact Hr|].
    destruct (ledger_reply e) as [code|]; [|reflexivity].
    destruct (Z.eqb code 200); [|reflexivity].
    cbn [negb]. now destruct (smtp_ok e).
Qed.

Lemma validate_keeps_data_model e rq w :
  data_model w -> data_model (snd (validate e rq w)).
Proof.
  intros (Hreg & Hval & Hin).
  destruct (validate_world e rq w) as [->|(d & Hc & Hr & Hv & ->)];
    [now repeat split|].
  repeat split.
  - exact Hreg.
  - rewrite synced_validation.
    apply (@single_record_add _ _ (get d "register_number")); auto.
  - intros doc Hd. rewrite synced_validation in Hd.
    change (registration_collection (synced d w))
      with (registration_collection w).
    cbn [add_doc docs] in Hd. apply in_app_or in Hd as [Hd|[<-|[]]].
    + now apply Hin.
    + exact Hr.
Qed.

Lemma register_keeps_data_model e rq w :
  data_model w -> data_model (snd (register e rq w)).
Proof.
  intros (Hreg & Hval & Hin).
  destruct (register_world e rq w) as [Hv [Hr|(info & Hi & Hnew & Hr)]].
  - repeat split.
    + now rewrite Hr.
    + now rewrite Hv.
    + intros doc Hd. rewrite Hv in Hd. rewrite Hr. now apply Hin.
  - repeat split.
    + rewrite Hr.
      apply (@single_record_add _ _ (get info "register_number")); auto.
      unfold attendee_info_of in Hi.
      destruct (form_value (form rq) "name"); [|discriminate].
      destruct (form_value (form rq) "degree"); [|discriminate].
      destruct (form_value (form rq) "class_section"); [|discriminate].
      destruct (form_value (form rq) "year"); [|discriminate].
      destruct (form_value (form rq) "register_number"); [|discriminate].
      destruct (form_value (form rq) "email"); [|discriminate].
      destruct (form_value (form rq) "phone"); [|discriminate].
      injection Hi as <-. reflexivity.
    + now rewrite Hv.
    + intros doc Hd. rewrite Hv in Hd.
      eapply has_record_more; [rewrite Hr; reflexivity | now apply Hin].
Qed.

Lemma handle_keeps_data_model e rq w :
  data_model w -> data_model (snd (handle e rq w)).
Proof.
  intros H. unfold handle, dispatch_request.
  destruct (match_rule url_map (path rq)) as [[methods v]|]; [|exact H].
  destruct (negb (existsb (verb_eqb (method rq)) (allowed methods)));
    [exact H|].
  destruct (verb_eqb (method rq) OPTIONS); [exact H|].
  assert (Hv : data_model (snd (call v e rq w))).
  { destruct v; cbn [call];
      [exact H | now apply register_keeps_data_model
       | now apply validate_keeps_data_model]. }
  destruct (call v e rq w) as [[r|x] w']; [exact Hv|].
  destruct x; exact Hv.
Qed.



(** ** Every request to [register] *)

Lemma attendee_info_shape f info :
  attendee_info_of f = Some info ->
  exists name degree class_section year register_number email phone,
    form_value f "name" = Some name
    /\ form_value f "degree" = Some degree
    /\ form_value f "class_section" = Some class_section
    /\ form_value f "year" = Some year
    /\ form_value f "register_number" = Some register_number
    /\ form_value f "email" = Some email
    /\ form_value f "phone" = Some phone
    /\ info = [(py "name", VStr name); (py "degree", VStr degree);
               (py "class_section", VStr class_section); (py "year", VStr year);
               (py "register_number", VStr register_number);
               (py "email", VStr email); (py "phone", VStr phone)].
Proof.
  unfold attendee_info_of.
  destruct (form_value f "name") as [name|]; [|discriminate].
  destruct (form_value f "degree") as [degree|]; [|discriminate].
  destruct (form_value f "class_section") as [class_section|]; [|discriminate].
  destruct (form_value f "year") as [year|]; [|discriminate].
  destruct (form_value f "register_number") as [register_number|];
    [|discriminate].
  destruct (form_value f "email") as [email|]; [|discriminate].
  destruct (form_value f "phone") as [phone|]; [|discriminate].
  intros [= <-].
  exists name, degree, class_section, year, register_number, email, phone.
  repeat split.
Qed.

(** What [register] answers, by what the form holds. *)
Lemma register_cases e rq w :
  register e rq w =
  match attendee_info_of (form rq) with
  | None => (Raise (HTTPException 400), w)
  | Some info =>
      if has_record (registration_collection w) (get info "register_number")
      then DuplicateRegistration w
      else registration_outcome e info w
  end.
Proof.
  unfold register, attendee_info_of, bind.
  rewrite form_get_value.
  destruct (form_value (form rq) "name") as [name|]; [|reflexivity].
  rewrite form_get_value.
  destruct (form_value (form rq) "degree") as [degree|]; [|reflexivity].
  rewrite form_get_value.
  destruct (form_value (form rq) "class_section") as [class_section|];
    [|reflexivity].
  rewrite form_get_value.
  destruct (form_value (form rq) "year") as [year|]; [|reflexivity].
  rewrite form_get_value.
  destruct (form_value (form rq) "register_number") as [register_number|];
    [|reflexivity].
  rewrite form_get_value.
  destruct (form_value (form rq) "email") as [email|]; [|reflexivity].
  rewrite form_get_value.
  destruct (form_value (form rq) "phone") as [phone|]; [|reflexivity].
  unfold M_find_one. cbn [coll].
  change (get _ "register_number") with (VStr register_number).
  fold (has_record (registration_collection w) (VStr register_number)).
  destruct (has_record (registration_collection w) (VStr register_number)) eqn:Hr;
    [reflexivity|].
  unfold insert_one, violates_index. cbn [coll].
  change (dict_get _ (py "register_number")) with (Some (VStr register_number)).
  cbv beta iota.
  fold (has_record (registration_collection w) (VStr register_number)).
  rewrite Hr, andb_false_r.
  unfold requests_post, send_email_with_qr, flash, ret, registration_outcome.
  destruct (ledger_reply e) as [code|]; [|reflexivity].
  destruct (Z.eqb code 200); [|reflexivity].
  cbn [negb]. now destruct (smtp_ok e).
Qed.

Lemma stored_registration_matches f info w :
  attendee_info_of f = Some info ->
  field_is (py "register_number") (get info "register_number")
    (stored_registration info w) = true.
Proof.
  intros H. apply attendee_info_shape in H
    as (name & degree & cs & year & rn & email & phone & _ & _ & _ & _ & _ & _ & _ & ->).
  unfold field_is, stored_registration.
  change (dict_get _ (py "register_number")) with (Some (VStr rn)).
  change (get _ "register_number") with (VStr rn).
  apply value_eqb_refl.
Qed.

Lemma registered_has_record f info w :
  attendee_info_of f = Some info ->
  has_record (registration_collection (registered info w))
    (get info "register_number") = true.
Proof.
  intros H.
  change (registration_collection (registered info w))
    with (add_doc (registration_collection w) (stored_registration info w)).
  rewrite has_record_add_doc, (@stored_registration_matches _ _ w H).
  apply orb_true_r.
Qed.

(** A form that lacks one of the seven fields is a 400: [request.form]
    raises before anything is looked up, stored, posted or mailed. *)
Theorem register_missing_field e rq w f :
  In f required_fields ->
  form_value (form rq) f = None ->
  register e rq w = (Raise (HTTPException 400), w)
  /\ (path rq = py "/register" -> method rq = POST ->
      handle e rq w = (ErrorPage 400, w)).
Proof.
  intros Hin Hf.
  assert (Hnone : attendee_info_of (form rq) = None).
  { unfold attendee_info_of. cbn [required_fields In] in Hin.
    decompose [or] Hin; try contradiction; subst f; rewrite Hf;
      repeat match goal with
             | |- context [form_value (form rq) ?k] =>
                 destruct (form_value (form rq) k)
             end; reflexivity. }
  assert (Hreg : register e rq w = (Raise (HTTPException 400), w)).
  { now rewrite register_cases, Hnone. }
  split; [exact Hreg|].
  intros Hp Hm. unfold handle, dispatch_request. rewrite Hp, Hm.
  change (match_rule url_map (py "/register")) with (Some ([POST], view_register)).
  cbn [allowed existsb verb_eqb negb orb app call]. now rewrite Hreg.
Qed.

(** A ledger that answers anything but 200 sends the attendee back to
    the form with a flash, but the registration document stays stored
    and no mail goes out: the attendee has no QR code, and the retry
    the flash asks for is turned away as a duplicate. *)
Theorem registration_ledger_failure e rq w info code :
  attendee_info_of (form rq) = Some info ->
  has_record (registration_collection w) (get info "register_number") = false ->
  ledger_reply e = StatusCode code ->
  code <> 200%Z ->
  let w' := snd (register e rq w) in
  fst (register e rq w) = Ret (RedirectTo url_index)
  /\ docs (registration_collection w')
     = docs (registration_collection w) ++ [stored_registration info w]
  /\ outbox w' = outbox w
  /\ flashes w'
     = flashes w
       ++ [(py "Failed to save data to Google Sheets. Please try again later.",
            py "error")]
  /\ forall e', register e' rq w' = DuplicateRegistration w'.
Proof.
  intros Hi Hr He Hc w'. subst w'.
  assert (H : register e rq w
              = (Ret (RedirectTo url_index),
                 flashed "Failed to save data to Google Sheets. Please try again later."
                         "error" (registered info w))).
  { rewrite register_cases, Hi, Hr. unfold registration_outcome. rewrite He.
    destruct (Z.eqb_spec code 200); [contradiction | reflexivity]. }
  rewrite H. cbn [fst snd].
  split; [reflexivity|]. split; [reflexivity|]. split; [reflexivity|].
  split; [reflexivity|].
  intros e'. rewrite register_cases, Hi.
  change (registration_collection (flashed _ _ (registered info w)))
    with (registration_collection (registered info w)).
  now rewrite (@registered_has_record _ _ w Hi).
Qed.


(** ** What the views never do *)

(** [register] never touches the validation collection.  It either
    stores nothing, posts nothing and mails nothing, or it stores one
    document, posts that document's text to the registration script
    once, and mails at most the one confirmation, and this only after
    the ledger answered 200. *)
Theorem register_frame e rq w :
  let w' := snd (register e rq w) in
  validation_collection w' = validation_collection w
  /\ ((docs (registration_collection w') = docs (registration_collection w)
       /\ ledger w' = ledger w /\ outbox w' = outbox w)
      \/ exists info,
           attendee_info_of (form rq) = Some info
           /\ has_record (registration_collection w)
                (get info "register_number") = false
           /\ docs (registration_collection w')
              = docs (registration_collection w) ++ [stored_registration info w]
           /\ ledger w'
              = ledger w ++ [(REGISTRATION_SCRIPT_URL, qr_payload info w)]
           /\ (outbox w' = outbox w
               \/ (outbox w' = outbox w ++ [confirmation info w]
                   /\ ledger_reply e = StatusCode 200))).
Proof.
  cbv zeta. rewrite register_cases.
  destruct (attendee_info_of (form rq)) as [info|] eqn:Hi;
    [|split; [reflexivity | left; repeat split]].
  destruct (has_record (registration_collection w) _) eqn:Hr;
    [split; [reflexivity | left; repeat split]|].
  unfold registration_outcome.
  destruct (ledger_reply e) as [code|] eqn:He; cbn [snd].
  - destruct (Z.eqb_spec code 200) as [->|Hc].
    + destruct (smtp_ok e); cbn [snd]; (split; [reflexivity|]); right;
        exists info; repeat split; auto.
    + cbn [snd]. split; [reflexivity|]. right. exists info.
      repeat split; auto.
  - split; [reflexivity|]. right. exists info. repeat split; auto.
Qed.


(** ** When a scan is accepted, and how a request to [validate] fails *)




(** ** The URL rules *)

Lemma match_rule_url_map p :
  match_rule url_map p = None
  \/ (p = py "/" /\ match_rule url_map p = Some ([GET], view_index))
  \/ (p = py "/register"
      /\ match_rule url_map p = Some ([POST], view_register))
  \/ (p = py "/$i$tvali"
      /\ match_rule url_map p = Some ([GET; POST], view_validate)).
Proof.
  unfold url_map. cbn [match_rule].
  destruct (pystr_eqb (py "/") p) eqn:E1;
    [apply pystr_eqb_eq in E1; right; left; now split|].
  destruct (pystr_eqb (py "/register") p) eqn:E2;
    [apply pystr_eqb_eq in E2; right; right; left; now split|].
  destruct (pystr_eqb (py "/$i$tvali") p) eqn:E3;
    [apply pystr_eqb_eq in E3; right; right; right; now split|].
  now left.
Qed.

(** A [GET] never changes anything, whatever its path, form and body:
    it renders the registration form at [/], the scan page at
    [/$i$tvali], is refused with 405 at [/register], and is a 404
    everywhere else. *)
Theorem get_is_safe e rq w :
  method rq = GET ->
  handle e rq w
  = (if pystr_eqb (py "/") (path rq) then Template "registration_form.html"
     else if pystr_eqb (py "/register") (path rq) then ErrorPage 405
     else if pystr_eqb (py "/$i$tvali") (path rq) then Template "validation.html"
     else ErrorPage 404,
     w).
Proof.
  intros Hm. unfold handle, dispatch_request, url_map. cbn [match_rule].
  destruct (pystr_eqb (py "/") (path rq)).
  { rewrite Hm. reflexivity. }
  destruct (pystr_eqb (py "/register") (path rq)).
  { rewrite Hm. reflexivity. }
  destruct (pystr_eqb (py "/$i$tvali") (path rq)); [|reflexivity].
  rewrite Hm. cbn [allowed existsb verb_eqb negb orb app call].
  unfold validate. rewrite Hm. reflexivity.
Qed.

(** Only two kinds of request can change the world: a [POST] to
    [/register], and a request to [/$i$tvali] that is not a [GET]. *)
Theorem only_two_routes_write e rq w :
  snd (handle e rq w) <> w ->
  (path rq = py "/register" /\ method rq = POST)
  \/ (path rq = py "/$i$tvali" /\ (method rq = POST \/ method rq = HEAD)).
Proof.
  unfold handle, dispatch_request.
  destruct (match_rule_url_map (path rq))
    as [->|[[Hp ->]|[[Hp ->]|[Hp ->]]]].
  - intros H. now destruct H.
  - destruct (method rq); cbn; intros H; now destruct H.
  - destruct (method rq) eqn:Hm; cbn; intros H;
      try (now destruct H). now left.
  - destruct (method rq) eqn:Hm;
      cbn [allowed existsb verb_eqb negb orb app call];
      try (cbn; intros H; now destruct H).
    + unfold validate. rewrite Hm. cbn. intros H. now destruct H.
    + intros _. right. split; [exact Hp | now left].
    + intros _. right. split; [exact Hp | now right].
Qed.

(** ** From the registration to the check-in *)

(** [json.dumps(record, cls=ObjectIdEncoder)] read back by
    [json.loads]: for a non-empty dict with distinct text keys whose
    values are text (quotes, backslashes, control and non-ASCII
    characters included) or [ObjectId]s, the result is the same dict,
    in the same order, with every [ObjectId] as its [str]. *)
Theorem object_id_encoder_round_trip d :
  d <> [] ->
  text_record d = true ->
  NoDup (map fst d) ->
  decode (dumps (VDict d)) = Parsed (VDict (as_read d)) []
  /\ (forall k id, In (k, VOid id) d -> In (k, VStr (oid_str id)) (as_read d))
  /\ (forall k s, In (k, VStr s) d -> In (k, VStr s) (as_read d)).
Proof.
  intros Hne Ht Hnd. split; [now apply decode_dumps_text_record|].
  split; intros k x Hin;
    apply (in_map (fun kv => (fst kv, ObjectIdEncoder_default (snd kv)))) in Hin;
    exact Hin.
Qed.

Lemma qr_payload_decodes f info w :
  attendee_info_of f = Some info ->
  text_record info = true ->
  decodes_to (qr_payload info w) (scanned info w)
  /\ complete (scanned info w) = true
  /\ get (scanned info w) "register_number" = get info "register_number"
  /\ fields_of (scanned info w) = info.
Proof.
  intros H Ht. apply attendee_info_shape in H
    as (name & degree & cs & year & rn & email & phone & _ & _ & _ & _ & _ & _ & _ & ->).
  split; [|split; [reflexivity | split; reflexivity]].
  unfold decodes_to, qr_payload, scanned. apply decode_dumps_text_record.
  - discriminate.
  - change (stored_registration _ w)
      with ([(py "name", VStr name); (py "degree", VStr degree);
             (py "class_section", VStr cs); (py "year", VStr year);
             (py "register_number", VStr rn); (py "email", VStr email);
             (py "phone", VStr phone)] ++ [(py "_id", VOid (next_id w))]).
    rewrite text_record_app, Ht. reflexivity.
  - change (map fst (stored_registration _ w))
      with [py "name"; py "degree"; py "class_section"; py "year";
            py "register_number"; py "email"; py "phone"; py "_id"].
    repeat (constructor; [cbn [In]; intuition discriminate|]). constructor.
Qed.


(** ** Two registrations side by side *)

(** A registration that runs alone is the view [register]. *)
Lemma reg_alone_is_register e rq w :
  reg_alone (RArrived e rq) w
  = (RFinished (fst (register e rq w)), snd (register e rq w)).
Proof.
  unfold reg_alone, register. cbn [reg_step].
  unfold unguarded, reg_lookup, bind, ret.
  destruct (form_get (form rq) (py "name") w) as [[name|x] w1];
    [cbv beta iota | reflexivity].
  destruct (form_get (form rq) (py "degree") w1) as [[degree|x] w2];
    [cbv beta iota | reflexivity].
  destruct (form_get (form rq) (py "class_section") w2) as [[cs|x] w3];
    [cbv beta iota | reflexivity].
  destruct (form_get (form rq) (py "year") w3) as [[year|x] w4];
    [cbv beta iota | reflexivity].
  destruct (form_get (form rq) (py "register_number") w4) as [[rn|x] w5];
    [cbv beta iota | reflexivity].
  destruct (form_get (form rq) (py "email") w5) as [[email|x] w6];
    [cbv beta iota | reflexivity].
  destruct (form_get (form rq) (py "phone") w6) as [[phone|x] w7];
    [cbv beta iota | reflexivity].
  destruct (M_find_one Registration (py "register_number") (VStr rn) w7)
    as [[existing|x] w8]; [cbv beta iota | reflexivity].
  destruct (truthy existing).
  { destruct (flash _ _ w8) as [[u|x] w9]; reflexivity. }
  cbn [reg_step]. unfold unguarded, reg_insert, bind, ret.
  match goal with
  | |- context [insert_one Registration ?d w8] =>
      destruct (insert_one Registration d w8) as [[[id info]|x] w9];
      [cbv beta iota | reflexivity]
  end.
  cbn [reg_step]. unfold unguarded, reg_post, bind, ret.
  match goal with
  | |- context [requests_post e REGISTRATION_SCRIPT_URL ?b w9] =>
      destruct (requests_post e REGISTRATION_SCRIPT_URL b w9)
        as [[status_code|x] w10]; [cbv beta iota | reflexivity]
  end.
  destruct (Z.eqb status_code 200); cbn [negb].
  - cbn [reg_step]. unfold unguarded, reg_mail, bind, ret.
    match goal with
    | |- context [send_email_with_qr e ?a ?b ?c ?d w10] =>
        destruct (send_email_with_qr e a b c d w10) as [[u|x] w11]
    end; reflexivity.
  - destruct (flash _ _ w10) as [[u|x] w11]; reflexivity.
Qed.

Lemma reg_step_lookup e rq w :
  reg_step (RArrived e rq) w =
  match attendee_info_of (form rq) with
  | None => (RFinished (Raise (HTTPException 400)), w)
  | Some info =>
      if has_record (registration_collection w) (get info "register_number")
      then (RFinished (fst (DuplicateRegistration w)),
            snd (DuplicateRegistration w))
      else (RChecked e (text_of (get info "name"))
              (text_of (get info "register_number"))
              (text_of (get info "email")) info, w)
  end.
Proof.
  cbn [reg_step]. unfold unguarded, reg_lookup, attendee_info_of, bind.
  rewrite form_get_value.
  destruct (form_value (form rq) "name") as [name|]; [|reflexivity].
  rewrite form_get_value.
  destruct (form_value (form rq) "degree") as [degree|]; [|reflexivity].
  rewrite form_get_value.
  destruct (form_value (form rq) "class_section") as [class_section|];
    [|reflexivity].
  rewrite form_get_value.
  destruct (form_value (form rq) "year") as [year|]; [|reflexivity].
  rewrite form_get_value.
  destruct (form_value (form rq) "register_number") as [register_number|];
    [|reflexivity].
  rewrite form_get_value.
  destruct (form_value (form rq) "email") as [email|]; [|reflexivity].
  rewrite form_get_value.
  destruct (form_value (form rq) "phone") as [phone|]; [|reflexivity].
  unfold M_find_one. cbn [coll].
  change (get _ "register_number") with (VStr register_number).
  fold (has_record (registration_collection w) (VStr register_number)).
  now destruct (has_record (registration_collection w) (VStr register_number)).
Qed.

Lemma reg_step_insert f info e name register_number email w :
  attendee_info_of f = Some info ->
  reg_step (RChecked e name register_number email info) w =
  if unique_register_number (registration_collection w)
     && has_record (registration_collection w) (get info "register_number")
  then (RFinished (Raise DuplicateKeyError), w)
  else (RStored e name register_number email (qr_payload info w),
        stored Registration (stored_registration info w) w).
Proof.
  intros H. apply attendee_info_shape in H
    as (n & degree & cs & year & rn & em & phone & _ & _ & _ & _ & _ & _ & _ & ->).
  cbn [reg_step]. unfold unguarded, reg_insert, bind, insert_one, violates_index.
  cbn [coll].
  change (dict_get _ (py "register_number")) with (Some (VStr rn)).
  change (get _ "register_number") with (VStr rn).
  cbv beta iota.
  fold (has_record (registration_collection w) (VStr rn)).
  now destruct (unique_register_number (registration_collection w)
                && has_record (registration_collection w) (VStr rn)).
Qed.

Lemma reg_step_post e name register_number email json_data w :
  reg_step (RStored e name register_number email json_data) w =
  match ledger_reply e with
  | Unreachable =>
      (RFinished (Raise ConnectionError),
       posted REGISTRATION_SCRIPT_URL json_data w)
  | StatusCode code =>
      if Z.eqb code 200
      then (RPosted e name register_number email json_data,
            posted REGISTRATION_SCRIPT_URL json_data w)
      else (RFinished (Ret (RedirectTo url_index)),
            flashed "Failed to save data to Google Sheets. Please try again later."
                    "error" (posted REGISTRATION_SCRIPT_URL json_data w))
  end.
Proof.
  cbn [reg_step]. unfold unguarded, reg_post, bind, requests_post.
  destruct (ledger_reply e) as [code|]; [|reflexivity].
  now destruct (Z.eqb code 200).
Qed.

Lemma reg_step_mail e name register_number email json_data w :
  reg_step (RPosted e name register_number email json_data) w =
  (RFinished (Ret (Template "thanks.html")),
   snd (send_email_with_qr e name register_number email json_data w)).
Proof.
  cbn [reg_step]. unfold unguarded, reg_mail, bind, send_email_with_qr, flash,
    generate_qr_code.
  now destruct (smtp_ok e).
Qed.

Lemma send_email_keeps_store e name register_number email qr w :
  registration_collection
    (snd (send_email_with_qr e name register_number email qr w))
  = registration_collection w
  /\ next_id (snd (send_email_with_qr e name register_number email qr w))
     = next_id w
  /\ ledger (snd (send_email_with_qr e name register_number email qr w))
     = ledger w.
Proof.
  unfold send_email_with_qr, flash. now destruct (smtp_ok e).
Qed.


(** ** Stores that only grow *)

Lemma handle_world e rq w :
  snd (handle e rq w) = w
  \/ snd (handle e rq w) = snd (register e rq w)
  \/ snd (handle e rq w) = snd (validate e rq w).
Proof.
  unfold handle, dispatch_request.
  destruct (match_rule_url_map (path rq))
    as [->|[[Hp ->]|[[Hp ->]|[Hp ->]]]].
  - now left.
  - destruct (negb _); [now left|].
    destruct (verb_eqb (method rq) OPTIONS); now left.
  - destruct (negb _); [now left|].
    destruct (verb_eqb (method rq) OPTIONS); [now left|].
    right; left. cbn [call].
    destruct (register e rq w) as [[r|x] w']; [reflexivity|].
    now destruct x.
  - destruct (negb _); [now left|].
    destruct (verb_eqb (method rq) OPTIONS); [now left|].
    right; right. cbn [call].
    destruct (validate e rq w) as [[r|x] w']; [reflexivity|].
    now destruct x.
Qed.

Lemma handle_keeps_index e rq w :
  unique_register_number (registration_collection (snd (handle e rq w)))
  = unique_register_number (registration_collection w)
  /\ unique_register_number (validation_collection (snd (handle e rq w)))
     = unique_register_number (validation_collection w).
Proof.
  destruct (handle_world e rq w) as [->|[->| ->]].
  - now split.
  - destruct (register_world e rq w) as [-> [->|(info & _ & _ & ->)]];
      now split.
  - destruct (validate_world e rq w) as [->|(d & _ & _ & _ & ->)]; now split.
Qed.

(** The application only ever appends to its collections: after any
    sequence of requests every document is still where it was, so a
    registered number stays registered and a validated number stays
    validated, and no request creates or drops an index. *)
Theorem stores_only_grow rs w :
  let w' := serve rs w in
  (exists more, docs (registration_collection w')
                = docs (registration_collection w) ++ more)
  /\ (exists more, docs (validation_collection w')
                   = docs (validation_collection w) ++ more)
  /\ unique_register_number (registration_collection w')
     = unique_register_number (registration_collection w)
  /\ unique_register_number (validation_collection w')
     = unique_register_number (validation_collection w)
  /\ forall r,
       (has_record (registration_collection w) r = true ->
        has_record (registration_collection w') r = true)
       /\ (has_record (validation_collection w) r = true ->
           has_record (validation_collection w') r = true).
Proof.
  cbv zeta.
  destruct (serve_extends rs w) as [Hr Hv].
  split; [exact Hr|]. split; [exact Hv|].
  assert (Hi : unique_register_number (registration_collection (serve rs w))
               = unique_register_number (registration_collection w)
               /\ unique_register_number (validation_collection (serve rs w))
                  = unique_register_number (validation_collection w)).
  { revert w Hr Hv. induction rs as [|[e rq] rs IH]; intros w _ _;
      [now split|].
    cbn [serve].
    destruct (serve_extends rs (snd (handle e rq w))) as [Hr' Hv'].
    destruct (IH _ Hr' Hv') as [-> ->]. apply handle_keeps_index. }
  destruct Hi as [-> ->]. split; [reflexivity|]. split; [reflexivity|].
  intros r. apply has_record_extends. now split.
Qed.

(** ** The properties on the sample data *)

Lemma register_missing_field_witness :
  register env_ok registration_without_phone world0
  = (Raise (HTTPException 400), world0)
  /\ handle env_ok registration_without_phone world0 = (ErrorPage 400, world0).
Proof.
  destruct (@register_missing_field env_ok registration_without_phone world0
              "phone") as [H1 H2].
  - cbn [required_fields In]. tauto.
  - vm_compute; reflexivity.
  - split; [exact H1 | apply H2; reflexivity].
Defined.

Lemma registration_ledger_failure_witness :
  let w' := snd (register env_down asha_registration world0) in
  fst (register env_down asha_registration world0) = Ret (RedirectTo url_index)
  /\ docs (registration_collection w')
     = docs (registration_collection world0)
       ++ [stored_registration asha_info world0]
  /\ outbox w' = outbox world0
  /\ flashes w'
     = flashes world0
       ++ [(py "Failed to save data to Google Sheets. Please try again later.",
            py "error")]
  /\ forall e', register e' asha_registration w' = DuplicateRegistration w'.
Proof.
  apply (@registration_ledger_failure env_down asha_registration world0
           asha_info 503%Z);
    try (vm_compute; reflexivity).
  lia.
Defined.





Lemma get_is_safe_witness :
  handle env_ok get_with_payload asha_world
  = (if pystr_eqb (py "/") (path get_with_payload)
     then Template "registration_form.html"
     else if pystr_eqb (py "/register") (path get_with_payload)
     then ErrorPage 405
     else if pystr_eqb (py "/$i$tvali") (path get_with_payload)
     then Template "validation.html"
     else ErrorPage 404,
     asha_world).
Proof.
  apply (@get_is_safe env_ok get_with_payload asha_world). reflexivity.
Defined.

Lemma only_two_routes_write_witness :
  (path asha_registration = py "/register" /\ method asha_registration = POST)
  \/ (path asha_registration = py "/$i$tvali"
      /\ (method asha_registration = POST \/ method asha_registration = HEAD)).
Proof.
  apply (@only_two_routes_write env_ok asha_registration world0).
  intros H. apply (f_equal next_id) in H. vm_compute in H. discriminate H.
Defined.

Lemma object_id_encoder_round_trip_witness :
  decode (dumps (VDict asha_stored)) = Parsed (VDict (as_read asha_stored)) []
  /\ (forall k id, In (k, VOid id) asha_stored ->
                   In (k, VStr (oid_str id)) (as_read asha_stored))
  /\ (forall k s, In (k, VStr s) asha_stored ->
                  In (k, VStr s) (as_read asha_stored)).
Proof.
  apply (@object_id_encoder_round_trip asha_stored).
  - vm_compute. discriminate.
  - vm_compute; reflexivity.
  - vm_compute.
    repeat (constructor; [cbn [In]; intuition discriminate|]). constructor.
Defined.


